(** * strawberry-graphql-django: type resolution and field synthesis

    A shallow embedding of the type-decoration engine
    ([strawberry_django/type_extension.py]), of the field descriptor
    ([strawberry_django/fields/base.py]) and of the typing helpers
    ([strawberry_django/utils/typing.py]), with the properties of the
    specification stated and proved over it. *)

From Stdlib Require Import String List Bool.
Import ListNotations.
Open Scope string_scope.

Set Implicit Arguments.
Set Warnings "-register-all".

(** ** Exceptions and fallible results *)

Inductive error : Type :=
| FieldDoesNotExist
| MissingFieldAnnotationError (field_name : string) (origin : option string)
| KeyError (key : string)
| AttributeError (attr : string)
| RecursionError.

Inductive result (A : Type) : Type :=
| Ok (a : A)
| Raise (e : error).

Arguments Ok {A} a.
Arguments Raise {A} e.

Definition bind {A B : Type} (r : result A) (k : A -> result B) : result B :=
  match r with
  | Ok a => k a
  | Raise e => Raise e
  end.

Notation "x <- r ;; k" := (bind r (fun x => k))
  (at level 61, r at next level, right associativity).

Definition raises {A : Type} (r : result A) : Prop :=
  exists e, r = Raise e.

(** ** Python helpers *)

(** [str.endswith] *)
Fixpoint endswith (s suffix : string) : bool :=
  if String.eqb s suffix then true
  else match s with
       | EmptyString => false
       | String _ rest => endswith rest suffix
       end.

(** [x in xs] on a list of strings *)
Definition mem (x : string) (xs : list string) : bool :=
  existsb (String.eqb x) xs.

(** [list.remove]: drops the first occurrence *)
Fixpoint list_remove (x : string) (xs : list string) : list string :=
  match xs with
  | [] => []
  | y :: ys => if String.eqb y x then ys else y :: list_remove x ys
  end.

(** A Python [dict] keeps insertion order: an association list without
    repeated keys, where storing under a present key keeps its position. *)
Definition dict (V : Type) : Type := list (string * V).

Fixpoint dict_get {V : Type} (d : dict V) (k : string) : option V :=
  match d with
  | [] => None
  | (k', v) :: rest => if String.eqb k' k then Some v else dict_get rest k
  end.

Definition dict_contains {V : Type} (d : dict V) (k : string) : bool :=
  match dict_get d k with Some _ => true | None => false end.

Fixpoint dict_set {V : Type} (d : dict V) (k : string) (v : V) : dict V :=
  match d with
  | [] => [(k, v)]
  | (k', v') :: rest =>
      if String.eqb k' k then (k', v) :: rest else (k', v') :: dict_set rest k v
  end.

(** [dict.update] with the entries of [other], in order *)
Definition dict_update {V : Type} (d other : dict V) : dict V :=
  fold_left (fun acc kv => dict_set acc (fst kv) (snd kv)) other d.

Definition keys {V : Type} (d : dict V) : list string := map fst d.

(** ** Typing helpers ([utils/typing.py]) *)

Module Typing.

(** The annotations and types the engine inspects. A class carries what the
    code asks of it: whether it has [__strawberry_django_definition__] (and
    for which model), and, for a subclass of [relay.Connection], the three
    places its [NodeType] is looked up in. *)
Inductive ty : Type :=
| TAny
| TAuto
| TSelf
| TClass (name : string)
| TPrivate (of_type : ty)
| TOptional (of_type : ty)
| TList (of_type : ty)
| TLazy (target : ty)
| TUnion (types : list ty)
| TObject (name : string) (django_model : option string)
| TConnection (name : string) (django_model : option string)
    (origin_specialized type_var_map specialized : option ty).

(** An annotation as found in [__annotations__]: an object or, under
    postponed evaluation, its source text. *)
Inductive annotation : Type :=
| AType (t : ty)
| AStr (s : string).

Definition is_lazy (t : ty) : bool :=
  match t with TLazy _ => true | _ => false end.

(** [isinstance(t, StrawberryContainer)] *)
Definition is_container (t : ty) : bool :=
  match t with TOptional _ | TList _ => true | _ => false end.

Definition has_django_definition (obj : option ty) : bool :=
  match obj with
  | Some (TObject _ (Some _)) => true
  | Some (TConnection _ (Some _) _ _ _) => true
  | _ => false
  end.

Definition is_auto (obj : annotation) : bool :=
  match obj with
  | AStr s => mem s ["auto"; "strawberry.auto"]
  | AType TAuto => true
  | AType _ => false
  end.

(** The loop of [unwrap_type]: lazy types are resolved and containers
    opened until neither applies. *)
Fixpoint unwrap_type (type_ : ty) : ty :=
  match type_ with
  | TLazy target => unwrap_type target
  | TOptional of_type => unwrap_type of_type
  | TList of_type => unwrap_type of_type
  | _ => type_
  end.

(** [get_django_definition]: the definition attached to [obj], given by the
    name of the model it binds. With [strict] the attribute is read
    directly, otherwise through [getattr] with [None] as default. *)
Definition get_django_definition (obj : option ty) (strict : bool)
  : result (option string) :=
  match obj with
  | Some (TObject _ (Some definition)) => Ok (Some definition)
  | Some (TConnection _ (Some definition) _ _ _) => Ok (Some definition)
  | _ =>
      if strict then Raise (AttributeError "__strawberry_django_definition__")
      else Ok None
  end.

(** A class as [get_annotations] reads it: the module it comes from, whether
    it is a dataclass, and what [getattr(c, "__annotations__", {})] gives. *)
Record AnnotatedClass : Type := {
  class_module : string;
  is_dataclass : bool;
  class_annotations : dict annotation
}.

Section Annotations.

(** [strawberry.utils.typing.is_classvar], from outside the repository. *)
Variable is_classvar : AnnotatedClass -> annotation -> bool.

(** The inner loop of [get_annotations]: the annotations of [c] that are no
    class variables are stored with the namespace of [c], given by its
    module. *)
Definition collect_annotations (c : AnnotatedClass)
    (annotations : dict (annotation * string)) : dict (annotation * string) :=
  fold_left
    (fun acc kv =>
       if is_classvar c (snd kv) then acc
       else dict_set acc (fst kv) (snd kv, class_module c))
    (class_annotations c) annotations.

(** [get_annotations(cls)], where [cls.__mro__] is [cls :: bases]: the
    classes are visited from the last of the resolution order to [cls]
    itself, a base that is no dataclass being skipped. *)
Definition get_annotations (cls : AnnotatedClass) (bases : list AnnotatedClass)
  : dict (annotation * string) :=
  collect_annotations cls
    (fold_left
       (fun acc c => if is_dataclass c then collect_annotations c acc else acc)
       (rev bases) []).

End Annotations.

(** An argument of [Annotated[...]] after the first: a
    [StrawberryLazyReference], given by what its [resolve_forward_ref]
    returns for the first argument, or anything else. *)
Inductive annotated_arg : Type :=
| LazyReference (forward_ref : ty)
| OtherArg.

(** [get_type_from_lazy_annotation], on [first, *rest = get_args(type_)] *)
Fixpoint get_type_from_lazy_annotation (first : ty) (rest : list annotated_arg)
  : option ty :=
  match rest with
  | [] => None
  | LazyReference forward_ref :: _ => Some (unwrap_type forward_ref)
  | OtherArg :: rest' => get_type_from_lazy_annotation first rest'
  end.

End Typing.
Export Typing.

(** ** The model framework's view of a model *)

Module Models.

(** The classes of model attribute the engine tells apart with
    [isinstance]. *)
Inductive field_class : Type :=
| Column
| ForeignKey
| OneToOneField
| ManyToManyField
| ManyToOneRel
| OneToOneRel
| ManyToManyRel
| GenericForeignKey
| GenericRel.

(** What the engine reads of a model attribute. [field_help_text] is the
    help text of [model_attr.field], the forward field behind a reverse
    relation. *)
Inductive ModelField : Type := Build_ModelField {
  name : string;
  cls : field_class;
  null : bool;
  blank : bool;
  has_default : bool;
  primary_key : bool;
  is_relation : bool;
  help_text : option string;
  field_help_text : string;
  target_field : option ModelField
}.

(** [isinstance(f, ForeignKey)]: a one-to-one field is a foreign key. *)
Definition isinstance_ForeignKey (f : ModelField) : bool :=
  match cls f with ForeignKey | OneToOneField => true | _ => false end.

(** [python_name.endswith("_id") and isinstance(model_attr, ForeignKey)] *)
Definition is_fk_id (python_name : string) (model_attr : ModelField) : bool :=
  endswith python_name "_id" && isinstance_ForeignKey model_attr.

(** [model_attr.target_field if is_fk_id else model_attr]: the attribute
    whose type is resolved. *)
Definition type_source (python_name : string) (model_attr : ModelField)
  : result ModelField :=
  if is_fk_id python_name model_attr then
    match target_field model_attr with
    | Some key => Ok key
    | None => Raise (AttributeError "target_field")
    end
  else Ok model_attr.

(** [isinstance(f, (ManyToOneRel, ManyToManyRel))]: [OneToOneRel] derives
    from [ManyToOneRel]. *)
Definition isinstance_reverse_rel (f : ModelField) : bool :=
  match cls f with
  | ManyToOneRel | OneToOneRel | ManyToManyRel => true
  | _ => false
  end.

Definition isinstance_generic (f : ModelField) : bool :=
  match cls f with GenericForeignKey | GenericRel => true | _ => false end.

(** What [getattr(model, name, None)] can find on a model class besides its
    fields. *)
Inductive class_attr : Type :=
| CModelProperty (type_annotation : annotation) (description : option string)
| CProperty (return_annotation : option annotation) (doc : option string)
| CCachedProperty (return_annotation : option annotation)
    (doc : option string)
| COther (truthy : bool).

(** A model class: [meta_fields] is [model._meta.fields], the concrete
    fields in declaration order; many-to-many fields and reverse relations
    are kept by the framework in lists of their own. *)
Record Model : Type := {
  model_name : string;
  meta_fields : list ModelField;
  meta_many_to_many : list ModelField;
  meta_related_objects : list ModelField;
  class_attrs : dict class_attr;
  model_doc : option string
}.

End Models.
Export Models.

(** ** Settings ([strawberry_django_settings()]) *)

Record Settings : Type := {
  MAP_AUTO_ID_AS_GLOBAL_ID : bool;
  FIELD_DESCRIPTION_FROM_HELP_TEXT : bool;
  TYPE_DESCRIPTION_FROM_MODEL_DOCSTRING : bool
}.

(** ** Introspection helpers ([fields/types.py]) *)

Module FieldsTypes.

(** Modelled from the spec: [fields/types.py], which defines [is_optional],
    is not among the sources. Section 4.1 has it true if the attribute
    allows null, or has a default, or the definition is an input and
    partial, or the attribute is a primary key used in an input; the
    end-to-end example of section 8 (asserted by [tests/fields/test_input.py])
    adds that an attribute that may be left blank is optional in an input. *)
Definition is_optional (model_field : ModelField) (is_input is_partial : bool)
  : bool :=
  null model_field
  || has_default model_field
  || (is_input && is_partial)
  || (is_input && (primary_key model_field || blank model_field)).

(** [if is_optional(...): resolved_type = Optional[resolved_type]] *)
Definition optional_if (optional : bool) (resolved_type : ty) : ty :=
  if optional then TOptional resolved_type else resolved_type.

End FieldsTypes.

(** ** Definitions and fields shared by the engine and the descriptor *)

Module Definitions.

(** [is_filter: Literal["lookups"] | bool] *)
Inductive filter_flag : Type :=
| FilterFalse
| FilterTrue
| FilterLookups.

(** [bool(is_filter)] *)
Definition truthy (f : filter_flag) : bool :=
  match f with FilterFalse => false | _ => true end.

(** The attributes that [DjangoTypeExtension] and [DjangoObjectDefinition]
    have in common and that the helpers of [fields/types.py] read from either
    of them. The optimizer store, the filter and order types and the field
    class are carried along unread by the code modelled here. *)
Record definition_attrs : Type := {
  model : Model;
  is_input : bool;
  is_partial : bool;
  is_filter : filter_flag;
  pagination : bool;
  disable_optimization : bool
}.

Record DjangoObjectDefinition : Type := {
  definition_origin : string;
  definition_description : option string;
  definition_attrs_of :> definition_attrs
}.

(** [dataclasses.MISSING], [strawberry.UNSET], or a value *)
Inductive default_slot : Type :=
| MISSING
| UNSET
| Value (v : string).

Definition is_MISSING (d : default_slot) : bool :=
  match d with MISSING => true | _ => false end.

Inductive field_kind : Type :=
| DataclassField
| StrawberryField
| StrawberryDjangoField.

(** A field as the engine sees it; an attribute that [getattr] may find
    absent is an [option] ([None]: absent). [type_] is the value
    [field.type] reads off the annotation of the field. A default factory
    is given by the value it produces. [origin_definition] is what
    [get_object_definition(self.origin)] gives when it is a
    [DjangoObjectDefinition]. *)
Record Field : Type := {
  kind : field_kind;
  name : string;
  python_name : option string;
  django_name : option (option string);
  description : option string;
  type_ : annotation;
  type_annotation : option annotation;
  is_relation : bool;
  default : default_slot;
  default_factory : default_slot;
  default_value : default_slot;
  base_resolver : option string;
  base_resolver_type : option ty;
  origin : option string;
  origin_definition : option DjangoObjectDefinition;
  _django_definition : option DjangoObjectDefinition
}.

End Definitions.
Export Definitions.

(** ** The type decoration engine ([type_extension.py]) *)

Module TypeExtension.

(** The [fields] argument: [None], ["__all__"] or a list of names. *)
Inductive fields_arg : Type :=
| FieldsNone
| FieldsAll
| FieldsList (names : list string).

Record DjangoTypeExtension : Type := {
  _model_field_names : list string;
  _name : option string;
  _origin : option string;
  _use_fields_description : bool;
  extension_attrs :> definition_attrs
}.

(** The class being decorated: its name, its own [__annotations__] (absent
    from [cls.__dict__] when the body declares none) and the names for which
    [hasattr(cls, name)] holds. *)
Record PyClass : Type := {
  cls_name : string;
  cls_annotations : option (dict annotation);
  cls_attributes : list string
}.

(** The dictionary [_get_model_attrs] returns. *)
Record ModelAttrs : Type := {
  attrs_django_name : option string;
  attrs_type_annotation : annotation;
  attrs_description : option string;
  attrs_is_relation : bool
}.

(** The [attrs] of [on_field]: the annotation alone, or the four entries
    computed from the model. *)
Inductive FieldAttrs : Type :=
| AnnotationOnly (type_annotation : option annotation)
| FromModel (attrs : ModelAttrs).

(** Lines 96-103 of [__init__]: the names selected by [fields] and
    [exclude]. *)
Definition select_names (model : Model) (fields : fields_arg)
    (exclude : option (list string)) : list string :=
  match fields with
  | FieldsAll => map Models.name (meta_fields model)
  | FieldsList names =>
      map Models.name
        (filter (fun f => mem (Models.name f) names) (meta_fields model))
  | FieldsNone =>
      match exclude with
      | Some ex =>
          if Nat.ltb 0 (List.length ex) then
            map Models.name
              (filter (fun f => negb (mem (Models.name f) ex))
                 (meta_fields model))
          else []
      | None => []
      end
  end.

Definition model_field_names (settings : Settings) (model : Model)
    (fields : fields_arg) (exclude : option (list string)) : list string :=
  let names := select_names model fields exclude in
  if MAP_AUTO_ID_AS_GLOBAL_ID settings && mem "id" names
  then list_remove "id" names
  else names.

Definition __init__ (settings : Settings) (model : Model)
    (name : option string) (is_input is_partial : bool)
    (is_filter : filter_flag) (pagination disable_optimization : bool)
    (fields : fields_arg) (exclude : option (list string))
  : DjangoTypeExtension :=
  {| _model_field_names := model_field_names settings model fields exclude;
     _name := name;
     _origin := None;
     _use_fields_description := FIELD_DESCRIPTION_FROM_HELP_TEXT settings;
     extension_attrs :=
       {| Definitions.model := model;
          Definitions.is_input := is_input;
          Definitions.is_partial := is_partial;
          Definitions.is_filter := is_filter;
          Definitions.pagination := pagination;
          Definitions.disable_optimization := disable_optimization |} |}.

(** [getattr(field, "python_name", field.name)] *)
Definition python_name_of (field : Field) : string :=
  match python_name field with Some n => n | None => name field end.

(** [getattr(field, "django_name", None) or python_name] *)
Definition model_name_of (field : Field) : string :=
  match django_name field with
  | Some (Some n) => if String.eqb n "" then python_name_of field else n
  | _ => python_name_of field
  end.

(** [getattr(field, "type_annotation", StrawberryAnnotation(type_))]: a
    plain dataclass field has no such attribute, a schema field has it,
    possibly [None]. *)
Definition type_annotation_of (field : Field) : option annotation :=
  match kind field with
  | DataclassField => Some (type_ field)
  | _ => type_annotation field
  end.

(** The loop of lines 138-141: a selected name that is neither annotated
    nor an attribute of the class gets the placeholder annotation. *)
Definition inject_auto (names : list string) (attributes : list string)
    (annotations : dict annotation) : dict annotation :=
  fold_left
    (fun acc name =>
       if dict_contains acc name || mem name attributes then acc
       else dict_set acc name (AType TAuto))
    names annotations.

(** The four entries of lines 145-150. *)
Definition filter_boilerplate : dict annotation :=
  [ ("AND", AType (TOptional TSelf));
    ("OR", AType (TOptional TSelf));
    ("NOT", AType (TOptional TSelf));
    ("DISTINCT", AType (TOptional (TClass "bool"))) ].

(** What [getattr(cls, attr)] finds for a resolver name: a method bound to
    a class (a [types.MethodType], with its [__func__] and [__self__]) or an
    attribute of another kind, which has no [__func__]. Functions and
    classes are told apart by their names. *)
Inductive py_method : Type :=
| BoundMethod (func : string) (self : string)
| PlainAttribute (value : string).

(** The class once it is a dataclass, as the second half of
    [on_wrap_dataclass] sees it. *)
Record DataClass : Type := {
  dataclass_name : string;
  subclasses_Node : bool;
  class_methods : dict py_method
}.

(** The list of lines 158-163 *)
Definition node_resolvers : list (string * string) :=
  [ ("resolve_id", "resolve_model_id");
    ("resolve_id_attr", "resolve_model_id_attr");
    ("resolve_node", "resolve_model_node");
    ("resolve_nodes", "resolve_model_nodes") ].

(** [getattr(relay.Node, attr).__func__] *)
Definition Node_default (attr : string) : string := "relay.Node." ++ attr.

Definition setattr (cls : DataClass) (attr : string) (value : py_method)
  : DataClass :=
  {| dataclass_name := dataclass_name cls;
     subclasses_Node := subclasses_Node cls;
     class_methods := dict_set (class_methods cls) attr value |}.

(** One round of the loop of lines 158-177. *)
Definition install_resolver (cls : DataClass) (attr func : string)
  : result DataClass :=
  let existing_resolver := dict_get (class_methods cls) attr in
  replace <-
    match existing_resolver with
    | None => Ok true
    | Some (BoundMethod f _) => Ok (String.eqb f (Node_default attr))
    | Some (PlainAttribute _) => Raise (AttributeError "__func__")
    end ;;
  let cls :=
    if replace
    then setattr cls attr (BoundMethod func (dataclass_name cls))
    else cls in
  match dict_get (class_methods cls) attr with
  | None => Raise (AttributeError attr)
  | Some (BoundMethod f self) =>
      if negb (String.eqb self (dataclass_name cls))
      then Ok (setattr cls attr (BoundMethod f (dataclass_name cls)))
      else Ok cls
  | Some (PlainAttribute _) => Ok cls
  end.

Fixpoint install_resolvers (cls : DataClass) (todo : list (string * string))
  : result DataClass :=
  match todo with
  | [] => Ok cls
  | (attr, func) :: rest =>
      cls' <- install_resolver cls attr func ;;
      install_resolvers cls' rest
  end.

(** The resolver [f] a round leaves under [attr], told from what the class
    had there: the given one where there was none or the default of
    [relay.Node], the class's own otherwise. *)
Definition installed (cls : DataClass) (attr func f : string) : Prop :=
  match dict_get (class_methods cls) attr with
  | None => f = func
  | Some (BoundMethod g _) =>
      if String.eqb g (Node_default attr) then f = func else f = g
  | Some (PlainAttribute _) => False
  end.

(** [on_wrap_dataclass] after its [yield] *)
Definition on_wrap_dataclass_after (cls : DataClass) : result DataClass :=
  if negb (subclasses_Node cls) then Ok cls
  else install_resolvers cls node_resolvers.

Section Engine.

(** [strawberry.utils.str_converters.to_camel_case] and [inspect.cleandoc],
    from outside the repository. *)
Variable to_camel_case : string -> string.
Variable cleandoc : string -> string.

(** Whether [django.contrib.contenttypes] can be imported. *)
Variable contenttypes_available : bool.

(** The helpers of [fields/types.py] that are not among the sources:
    [get_model_field] ([None] stands for its raising [FieldDoesNotExist]),
    [resolve_model_field_type] and [resolve_model_field_name] (with its
    [is_input], [is_filter] and [is_fk_id] arguments). *)
Variable get_model_field : Model -> string -> option ModelField.
Variable resolve_model_field_type : ModelField -> definition_attrs -> ty.
Variable resolve_model_field_name :
  ModelField -> bool -> bool -> bool -> string.

(** [on_wrap_dataclass] up to its [yield]: the hook run before the class
    becomes a dataclass. It returns the engine and the class as it leaves
    them. *)
Definition on_wrap_dataclass (self : DjangoTypeExtension) (cls : PyClass)
  : DjangoTypeExtension * PyClass :=
  let self' :=
    {| _model_field_names := _model_field_names self;
       _name :=
         match _name self with
         | Some n =>
             if String.eqb n "" then Some (to_camel_case (cls_name cls))
             else Some n
         | None => Some (to_camel_case (cls_name cls))
         end;
       _origin := Some (cls_name cls);
       _use_fields_description := _use_fields_description self;
       extension_attrs := extension_attrs self |} in
  let cls_annotations0 :=
    match cls_annotations cls with Some d => d | None => [] end in
  let cls_annotations1 :=
    inject_auto (_model_field_names self) (cls_attributes cls)
      cls_annotations0 in
  let cls_annotations2 :=
    if truthy (is_filter self)
    then dict_update cls_annotations1 filter_boilerplate
    else cls_annotations1 in
  (self',
   {| cls_name := cls_name cls;
      cls_annotations := Some cls_annotations2;
      cls_attributes := cls_attributes cls |}).

(** [strawberry.private.is_private] *)
Definition is_private (type_ : annotation) : bool :=
  match type_ with AType (TPrivate _) => true | _ => false end.

(** A string that is neither [None] nor empty. *)
Definition truthy_str (s : option string) : bool :=
  match s with
  | Some s' => negb (String.eqb s' "")
  | None => false
  end.

(** The description of a property: its docstring, cleaned, when none was
    given and descriptions are taken from the model. *)
Definition property_description (self : DjangoTypeExtension)
    (description doc : option string) : option string :=
  match description, doc with
  | None, Some d =>
      if negb (String.eqb d "") && _use_fields_description self
      then Some (cleandoc d) else None
  | _, _ => description
  end.

(** Lines 266-288: the description of a model field. *)
Definition field_description (self : DjangoTypeExtension)
    (description : option string) (model_attr : ModelField) : option string :=
  match description with
  | None =>
      if _use_fields_description self then
        let f_description :=
          if contenttypes_available && isinstance_generic model_attr
          then None
          else if isinstance_reverse_rel model_attr
          then Some (field_help_text model_attr)
          else help_text model_attr in
        if truthy_str f_description then f_description else None
      else None
  | Some _ => description
  end.

Definition _get_model_attrs (self : DjangoTypeExtension) (field : Field)
  : result ModelAttrs :=
  let python_name := python_name_of field in
  let model_name := model_name_of field in
  let description := description field in
  match get_model_field (model self) model_name with
  | None =>
      match dict_get (class_attrs (model self)) model_name with
      | None => Raise FieldDoesNotExist
      | Some (COther false) => Raise FieldDoesNotExist
      | Some (CModelProperty type_annotation model_description) =>
          Ok {| attrs_django_name := Some model_name;
                attrs_type_annotation := type_annotation;
                attrs_description :=
                  match description with
                  | None => if _use_fields_description self
                            then model_description else None
                  | Some _ => description
                  end;
                attrs_is_relation := false |}
      | Some (CProperty return_type doc)
      | Some (CCachedProperty return_type doc) =>
          match return_type with
          | None =>
              Raise (MissingFieldAnnotationError model_name (_origin self))
          | Some return_type =>
              Ok {| attrs_django_name := Some model_name;
                    attrs_type_annotation := return_type;
                    attrs_description :=
                      property_description self description doc;
                    attrs_is_relation := false |}
          end
      | Some (COther true) => Raise FieldDoesNotExist
      end
  | Some model_attr =>
      let is_relation := Models.is_relation model_attr in
      let is_fk_id := is_fk_id python_name model_attr in
      target <- type_source python_name model_attr ;;
      let resolved_type := resolve_model_field_type target self in
      let resolved_type :=
        FieldsTypes.optional_if
          (FieldsTypes.is_optional model_attr (is_input self)
             (is_partial self))
          resolved_type in
      let model_name :=
        match django_name field with
        | Some v => v
        | None =>
            Some (resolve_model_field_name model_attr (is_input self)
                    (truthy (is_filter self)) is_fk_id)
        end in
      Ok {| attrs_django_name := model_name;
            attrs_type_annotation := AType resolved_type;
            attrs_description := field_description self description model_attr;
            attrs_is_relation := is_relation |}
  end.

(** [setattr(field, attr, value)] for each entry of [attrs]. *)
Definition set_attrs (field : Field) (attrs : FieldAttrs) : Field :=
  match attrs with
  | AnnotationOnly a =>
      {| kind := kind field; name := name field;
         python_name := python_name field;
         django_name := django_name field;
         description := description field;
         type_ := match a with Some a' => a' | None => type_ field end;
         type_annotation := a;
         is_relation := is_relation field;
         default := default field;
         default_factory := default_factory field;
         default_value := default_value field;
         base_resolver := base_resolver field;
         base_resolver_type := base_resolver_type field;
         origin := origin field;
         origin_definition := origin_definition field;
         _django_definition := _django_definition field |}
  | FromModel a =>
      {| kind := kind field; name := name field;
         python_name := python_name field;
         django_name := Some (attrs_django_name a);
         description := attrs_description a;
         type_ := attrs_type_annotation a;
         type_annotation := Some (attrs_type_annotation a);
         is_relation := attrs_is_relation a;
         default := default field;
         default_factory := default_factory field;
         default_value := default_value field;
         base_resolver := base_resolver field;
         base_resolver_type := base_resolver_type field;
         origin := origin field;
         origin_definition := origin_definition field;
         _django_definition := _django_definition field |}
  end.

(** [self.field_cls(...)]: a new managed field from what [getattr] finds on
    the old one, with the constructor's defaults ([django_name=None],
    [is_relation=False]) where [attrs] has no entry. *)
Definition new_field (field : Field) (attrs : FieldAttrs) : Field :=
  let python_name := python_name_of field in
  {| kind := StrawberryDjangoField;
     name := python_name;
     python_name := Some python_name;
     django_name :=
       Some (match attrs with
             | FromModel a => attrs_django_name a
             | AnnotationOnly _ => None
             end);
     description :=
       match attrs with
       | FromModel a => attrs_description a
       | AnnotationOnly _ => None
       end;
     type_ :=
       match attrs with
       | FromModel a => attrs_type_annotation a
       | AnnotationOnly (Some a) => a
       | AnnotationOnly None => type_ field
       end;
     type_annotation :=
       match attrs with
       | FromModel a => Some (attrs_type_annotation a)
       | AnnotationOnly a => a
       end;
     is_relation :=
       match attrs with
       | FromModel a => attrs_is_relation a
       | AnnotationOnly _ => false
       end;
     default := default field;
     default_factory := default_factory field;
     default_value :=
       match default_factory field with
       | MISSING => default field
       | produced => produced
       end;
     base_resolver := base_resolver field;
     base_resolver_type := base_resolver_type field;
     origin := origin field;
     origin_definition := origin_definition field;
     _django_definition := None |}.

(** Lines 355-360: an input field without a default gets [UNSET]. *)
Definition input_default (self : DjangoTypeExtension) (field : Field)
  : Field :=
  if is_input self && is_MISSING (default field)
     && is_MISSING (default_value field)
  then
    {| kind := kind field; name := name field;
       python_name := python_name field;
       django_name := django_name field;
       description := description field;
       type_ := type_ field;
       type_annotation := type_annotation field;
       is_relation := is_relation field;
       default := UNSET;
       default_factory := default_factory field;
       default_value := UNSET;
       base_resolver := base_resolver field;
       base_resolver_type := base_resolver_type field;
       origin := origin field;
       origin_definition := origin_definition field;
       _django_definition := _django_definition field |}
  else field.

Definition on_field (self : DjangoTypeExtension) (field : Field)
  : result Field :=
  let type_ := type_ field in
  if is_private type_ then Ok field
  else
    attrs <-
      (if is_auto type_
       then a <- _get_model_attrs self field ;; Ok (FromModel a)
       else Ok (AnnotationOnly (type_annotation_of field))) ;;
    match kind field, base_resolver field with
    | StrawberryDjangoField, _ =>
        Ok (input_default self (set_attrs field attrs))
    | StrawberryField, Some _ => Ok field
    | _, _ => Ok (input_default self (new_field field attrs))
    end.

(** [create_object_definition], with the [origin], [is_input] and
    [description] it is called with. *)
Definition create_object_definition (settings : Settings)
    (self : DjangoTypeExtension) (origin : string) (is_input : bool)
    (description : option string) : DjangoObjectDefinition :=
  {| definition_origin := origin;
     definition_description :=
       match description, model_doc (model self) with
       | None, Some doc =>
           if TYPE_DESCRIPTION_FROM_MODEL_DOCSTRING settings
              && negb (String.eqb doc "")
           then Some (cleandoc doc) else None
       | _, _ => description
       end;
     definition_attrs_of :=
       {| Definitions.model := model self;
          Definitions.is_input := is_input;
          Definitions.is_partial := is_partial self;
          Definitions.is_filter := is_filter self;
          Definitions.pagination := pagination self;
          Definitions.disable_optimization := disable_optimization self |} |}.

End Engine.

End TypeExtension.

(** ** The decorators ([type.py]) *)

Module TypeModule.

Import TypeExtension.

(** The call of [strawberry.type] a decorator ends in. *)
Record StrawberryTypeCall : Type := {
  call_name : option string;
  call_is_input : bool;
  call_is_interface : bool;
  call_description : option string;
  call_directives : list string;
  call_extend : bool;
  call_extension : DjangoTypeExtension
}.

Section Decorators.

(** The settings in force when the decorator is evaluated. *)
Variable settings : Settings.

Definition type (model : Model) (name : option string)
    (is_input is_interface : bool) (is_filter : filter_flag) (partial : bool)
    (description : option string) (directives : list string) (extend : bool)
    (pagination disable_optimization : bool) (fields : fields_arg)
    (exclude : option (list string)) : StrawberryTypeCall :=
  {| call_name := name;
     call_is_input := is_input;
     call_is_interface := is_interface;
     call_description := description;
     call_directives := directives;
     call_extend := extend;
     call_extension :=
       __init__ settings model name is_input partial is_filter pagination
         disable_optimization fields exclude |}.

Definition interface (model : Model) (name : option string)
    (description : option string) (directives : list string)
    (disable_optimization : bool) : StrawberryTypeCall :=
  type model name false true FilterFalse false description directives false
    false disable_optimization FieldsNone None.

Definition input (model : Model) (name : option string)
    (description : option string) (directives : list string)
    (is_filter : filter_flag) (partial : bool) (fields : fields_arg)
    (exclude : option (list string)) : StrawberryTypeCall :=
  type model name true false is_filter partial description directives false
    false false fields exclude.

Definition partial (model : Model) (name : option string)
    (description : option string) (directives : list string)
    (fields : fields_arg) (exclude : option (list string))
  : StrawberryTypeCall :=
  type model name true false FilterFalse true description directives false
    false false fields exclude.

End Decorators.

End TypeModule.

(** ** The field descriptor ([fields/base.py]) *)

Module FieldsBase.

(** What [self.type] and [resolve_type] give: a type or the [UNRESOLVED]
    marker. *)
Inductive resolved : Type :=
| UNRESOLVED
| Resolved (t : ty).

(** [LazyType.resolve_type()] when the object is a [LazyType] *)
Definition resolve_lazy (origin : ty) : ty :=
  match origin with TLazy target => target | _ => origin end.

(** The inner loop of [django_type]: containers are opened, lazy types are
    not. *)
Fixpoint strip_containers (t : ty) : ty :=
  match t with
  | TOptional of_type => strip_containers of_type
  | TList of_type => strip_containers of_type
  | _ => t
  end.

(** [django_type] on the value [self.type] has. *)
Definition django_type_of (self_type : resolved) : result (option ty) :=
  match self_type with
  | UNRESOLVED => Ok None
  | Resolved origin =>
      let origin := resolve_lazy origin in
      origin <-
        match origin with
        | TConnection _ _ origin_specialized type_var_map specialized =>
            node <-
              match origin_specialized, type_var_map, specialized with
              | Some o, _, _ => Ok o
              | None, Some o, _ => Ok o
              | None, None, Some o => Ok o
              | None, None, None => Raise (KeyError "NodeType")
              end ;;
            Ok (resolve_lazy node)
        | _ => Ok origin
        end ;;
      let origin := unwrap_type origin in
      let origin := resolve_lazy origin in
      let origin :=
        match origin with
        | TUnion types =>
            let origin_list :=
              filter (fun t => has_django_definition (Some t))
                (map strip_containers types) in
            match origin_list with
            | [o] => Some o
            | _ => None
            end
        | _ => Some origin
        end in
      Ok (if has_django_definition origin then origin else None)
  end.

(** Lines 113-128 of [django_type] on their own: what becomes of [origin]
    after the step that replaces a connection by its node type. *)
Definition model_backed_of (origin : ty) : option ty :=
  let origin := unwrap_type origin in
  let origin := resolve_lazy origin in
  let origin :=
    match origin with
    | TUnion types =>
        let origin_list :=
          filter (fun t => has_django_definition (Some t))
            (map strip_containers types) in
        match origin_list with
        | [o] => Some o
        | _ => None
        end
    | _ => Some origin
    end in
  if has_django_definition origin then origin else None.

(** [django_model] on the value [self.type] has: the model of the
    definition of [django_type], read as an attribute. *)
Definition django_model_of (self_type : resolved) : result (option string) :=
  django_type <- django_type_of self_type ;;
  match django_type with
  | Some t => get_django_definition (Some t) true
  | None => Ok None
  end.

(** [isinstance(self.type, StrawberryOptional)] *)
Definition is_optional_of (self_type : resolved) : bool :=
  match self_type with
  | Resolved (TOptional _) => true
  | _ => false
  end.

Definition is_list_of (self_type : resolved) : bool :=
  match self_type with
  | Resolved (TOptional (TList _)) => true
  | Resolved (TList _) => true
  | _ => false
  end.

(** [isinstance(type_, type) and issubclass(type_, relay.Connection)] *)
Definition is_connection_of (self_type : resolved) : bool :=
  match self_type with
  | Resolved (TOptional (TConnection _ _ _ _ _)) => true
  | Resolved (TConnection _ _ _ _ _) => true
  | _ => false
  end.

Definition set_type_annotation (self : Field) (a : option annotation)
  : Field :=
  {| kind := kind self; name := name self;
     python_name := python_name self;
     django_name := django_name self;
     description := description self;
     type_ := type_ self;
     type_annotation := a;
     is_relation := is_relation self;
     default := default self;
     default_factory := default_factory self;
     default_value := default_value self;
     base_resolver := base_resolver self;
     base_resolver_type := base_resolver_type self;
     origin := origin self;
     origin_definition := origin_definition self;
     _django_definition := _django_definition self |}.

Definition set_django_definition (self : Field)
    (d : option DjangoObjectDefinition) : Field :=
  {| kind := kind self; name := name self;
     python_name := python_name self;
     django_name := django_name self;
     description := description self;
     type_ := type_ self;
     type_annotation := type_annotation self;
     is_relation := is_relation self;
     default := default self;
     default_factory := default_factory self;
     default_value := default_value self;
     base_resolver := base_resolver self;
     base_resolver_type := base_resolver_type self;
     origin := origin self;
     origin_definition := origin_definition self;
     _django_definition := d |}.

(** The [django_definition] property, with the field as it leaves it. *)
Definition django_definition (self : Field)
  : option DjangoObjectDefinition * Field :=
  match _django_definition self with
  | Some d => (Some d, self)
  | None =>
      match origin_definition self with
      | Some def_ => (Some def_, set_django_definition self (Some def_))
      | None => (None, self)
      end
  end.

(** The value of [self.type] with at most one optional wrapper taken off,
    as [is_list] and [is_connection] look at it. *)
Definition without_optional (self_type : resolved) : option ty :=
  match self_type with
  | UNRESOLVED => None
  | Resolved (TOptional of_type) => Some of_type
  | Resolved t => Some t
  end.

Definition is_any_or_auto (t : ty) : bool :=
  match t with TAny | TAuto => true | _ => false end.

(** [isinstance(resolved, StrawberryAuto)] then [UNRESOLVED] *)
Definition auto_to_unresolved (r : resolved) : resolved :=
  match r with
  | Resolved TAuto => UNRESOLVED
  | _ => r
  end.

(** [self.django_name or self.python_name or self.name] *)
Definition lookup_name (self : Field) : string :=
  match django_name self with
  | Some (Some n) =>
      if negb (String.eqb n "") then n
      else match python_name self with
           | Some p => if negb (String.eqb p "") then p else name self
           | None => name self
           end
  | _ => match python_name self with
         | Some p => if negb (String.eqb p "") then p else name self
         | None => name self
         end
  end.

Section Descriptor.

(** The module namespace a postponed annotation is resolved in. *)
Variable namespace : string -> option ty.

Variable get_model_field : Model -> string -> option ModelField.
Variable resolve_model_field_type : ModelField -> definition_attrs -> ty.

(** The base class is the schema library's [StrawberryField], outside the
    repository. Its [resolve_type] resolves the stored annotation, or else
    takes the type of the resolver; a name not yet bound leaves the field
    [UNRESOLVED]. Types here carry no type variables, so the generic
    specialisation through [type_definition] has nothing to do. *)
Definition StrawberryField_resolve_type (self : Field) : resolved :=
  match type_annotation self with
  | Some (AType t) => Resolved t
  | Some (AStr s) =>
      match namespace s with
      | Some t => Resolved t
      | None => UNRESOLVED
      end
  | None =>
      match base_resolver self, base_resolver_type self with
      | Some _, Some t => Resolved t
      | _, _ => UNRESOLVED
      end
  end.

(** The number of nested calls of [resolve_type] the interpreter allows
    before it raises [RecursionError]: of the order of its frame limit, each
    round taking the frame of the method and that of the property. *)
Definition recursion_limit : nat := 500.

(** [super().type]: the [type] property of the base class returns
    [self.resolve_type()], and the method it finds on a managed field is the
    override below, which it is given here. *)
Definition StrawberryField_type
    (resolve_type : Field -> result (resolved * Field * nat)) (self : Field)
  : result (resolved * Field * nat) :=
  resolve_type self.

(** [resolve_type] with [depth] nested calls still allowed: the resolved
    value, the field as the call leaves it, and the number of calls of
    [get_model_field] made. *)
Fixpoint resolve_type_at (depth : nat) (self : Field)
  : result (resolved * Field * nat) :=
  match depth with
  | O => Raise RecursionError
  | S depth =>
      match StrawberryField_resolve_type self with
      | UNRESOLVED => Ok (UNRESOLVED, self, 0)
      | Resolved t =>
          match django_definition self with
          | (None, self) => Ok (Resolved t, self, 0)
          | (Some django_def, self) =>
              let unwraped := unwrap_type t in
              if is_any_or_auto unwraped then
                match
                  get_model_field (model django_def) (lookup_name self)
                with
                | None => Raise FieldDoesNotExist
                | Some model_field =>
                    python_name <-
                      match python_name self with
                      | Some p => Ok p
                      | None => Raise (AttributeError "endswith")
                      end ;;
                    target <- type_source python_name model_field ;;
                    let resolved_type :=
                      resolve_model_field_type target django_def in
                    let resolved_type :=
                      FieldsTypes.optional_if
                        (FieldsTypes.is_optional model_field
                           (is_input django_def) (is_partial django_def))
                        resolved_type in
                    let self :=
                      set_type_annotation self
                        (Some (AType resolved_type)) in
                    again <-
                      StrawberryField_type (resolve_type_at depth) self ;;
                    Ok (auto_to_unresolved (fst (fst again)),
                        snd (fst again), S (snd again))
                end
              else Ok (auto_to_unresolved (Resolved t), self, 0)
          end
      end
  end.

Definition resolve_type (self : Field) : result (resolved * Field * nat) :=
  resolve_type_at recursion_limit self.

(** [self.type] *)
Definition type (self : Field) : result resolved :=
  r <- resolve_type self ;; Ok (fst (fst r)).

(** The cached properties, on their first access. *)
Definition django_type (self : Field) : result (option ty) :=
  t <- type self ;; django_type_of t.

Definition django_model (self : Field) : result (option string) :=
  t <- type self ;; django_model_of t.

Definition is_optional (self : Field) : result bool :=
  t <- type self ;; Ok (is_optional_of t).

Definition is_list (self : Field) : result bool :=
  t <- type self ;; Ok (is_list_of t).

Definition is_connection (self : Field) : result bool :=
  t <- type self ;; Ok (is_connection_of t).

End Descriptor.

End FieldsBase.

(** ** Models and helpers of the test suite *)

Module Fixtures.

Definition column (name : string) (null blank has_default : bool)
  : ModelField :=
  {| Models.name := name; cls := Column; null := null; blank := blank;
     has_default := has_default; primary_key := false;
     Models.is_relation := false; help_text := Some "";
     field_help_text := ""; target_field := None |}.

(** The automatic primary key every model gets. *)
Definition id_field : ModelField :=
  {| Models.name := "id"; cls := Column; null := false; blank := true;
     has_default := false; primary_key := true;
     Models.is_relation := false; help_text := Some "";
     field_help_text := ""; target_field := None |}.

(** [InputFieldsModel] of [tests/fields/test_input.py] *)
Definition InputFieldsModel : Model :=
  {| model_name := "InputFieldsModel";
     meta_fields :=
       [ id_field;
         column "mandatory" false false false;
         column "default" false false true;
         column "blank" false true false;
         column "null" true false false ];
     meta_many_to_many := [];
     meta_related_objects := [];
     class_attrs := [];
     model_doc := None |}.

(** A fruit has a colour (a nullable foreign key), a maker (a required
    one), some types (many-to-many) and is looked at from its tastings (a
    reverse relation); it has a property without a return annotation and one
    with. *)
Definition color_field : ModelField :=
  {| Models.name := "color"; cls := ForeignKey; null := true; blank := true;
     has_default := false; primary_key := false;
     Models.is_relation := true; help_text := Some "";
     field_help_text := ""; target_field := Some id_field |}.

Definition maker_field : ModelField :=
  {| Models.name := "maker"; cls := ForeignKey; null := false; blank := false;
     has_default := false; primary_key := false;
     Models.is_relation := true; help_text := Some "";
     field_help_text := ""; target_field := Some id_field |}.

Definition types_field : ModelField :=
  {| Models.name := "types"; cls := ManyToManyField; null := false;
     blank := false; has_default := false; primary_key := false;
     Models.is_relation := true; help_text := Some "";
     field_help_text := ""; target_field := None |}.

Definition tastings_rel : ModelField :=
  {| Models.name := "tastings"; cls := ManyToOneRel; null := true;
     blank := false; has_default := false; primary_key := false;
     Models.is_relation := true; help_text := None;
     field_help_text := ""; target_field := None |}.

Definition Fruit : Model :=
  {| model_name := "Fruit";
     meta_fields :=
       [ id_field; column "name" false false false; color_field;
         maker_field ];
     meta_many_to_many := [ types_field ];
     meta_related_objects := [ tastings_rel ];
     class_attrs :=
       [ ("label", CProperty None None);
         ("title", CProperty (Some (AType (TClass "str"))) None);
         ("objects", COther true) ];
     model_doc := None |}.

(** The framework's field lookup: by name among all the fields of the model,
    a foreign key answering to its column name as well. *)
Definition get_field (model : Model) (field_name : string)
  : option ModelField :=
  find
    (fun f =>
       String.eqb (Models.name f) field_name
       || (isinstance_ForeignKey f
           && String.eqb (Models.name f ++ "_id") field_name))
    (meta_fields model ++ meta_many_to_many model
     ++ meta_related_objects model).

(** A type table in the manner of section 4.1: a key is an [ID], a column an
    [int], a forward relation the related type, any other relation a list of
    it. *)
Definition field_type (f : ModelField) (d : definition_attrs) : ty :=
  match cls f with
  | Column => if primary_key f then TClass "ID" else TClass "int"
  | ForeignKey | OneToOneField | OneToOneRel | GenericForeignKey =>
      TObject "DjangoModelType" None
  | _ => TList (TObject "DjangoModelType" None)
  end.

Definition field_name (f : ModelField) (is_input is_filter is_fk_id : bool)
  : string :=
  if is_fk_id then Models.name f ++ "_id" else Models.name f.

Definition identity (s : string) : string := s.

Definition no_names (s : string) : option ty := None.

Definition defaults : Settings :=
  {| MAP_AUTO_ID_AS_GLOBAL_ID := false;
     FIELD_DESCRIPTION_FROM_HELP_TEXT := false;
     TYPE_DESCRIPTION_FROM_MODEL_DOCSTRING := false |}.

Definition global_ids : Settings :=
  {| MAP_AUTO_ID_AS_GLOBAL_ID := true;
     FIELD_DESCRIPTION_FROM_HELP_TEXT := false;
     TYPE_DESCRIPTION_FROM_MODEL_DOCSTRING := false |}.

(** A field of a class body: [name: annotation], without a default. *)
Definition declared (name : string) (a : annotation) : Field :=
  {| kind := DataclassField; Definitions.name := name; python_name := None;
     django_name := None; description := None; type_ := a;
     type_annotation := None; Definitions.is_relation := false;
     default := MISSING; default_factory := MISSING;
     default_value := MISSING; base_resolver := None;
     base_resolver_type := None; origin := None;
     origin_definition := None; _django_definition := None |}.

(** [strawberry_django.input(model, partial=...)] *)
Definition input_extension (model : Model) (partial : bool)
  : TypeExtension.DjangoTypeExtension :=
  TypeExtension.__init__ defaults model None true partial FilterFalse false
    false TypeExtension.FieldsNone None.

(** [strawberry_django.type(model)] *)
Definition type_extension (model : Model)
  : TypeExtension.DjangoTypeExtension :=
  TypeExtension.__init__ defaults model None false false FilterFalse false
    false TypeExtension.FieldsNone None.

(** [strawberry_django.filters.filter(model)]: a filterable input *)
Definition filter_extension (model : Model)
  : TypeExtension.DjangoTypeExtension :=
  TypeExtension.__init__ defaults model None true true FilterTrue false
    false TypeExtension.FieldsNone None.

(** A filter class whose body declares [name: auto] only. *)
Definition NameFilter : TypeExtension.PyClass :=
  {| TypeExtension.cls_name := "NameFilter";
     TypeExtension.cls_annotations := Some [("name", AType TAuto)];
     TypeExtension.cls_attributes := [] |}.

(** A filter class whose body declares [AND: int] before [name: str]. *)
Definition AndFilter : TypeExtension.PyClass :=
  {| TypeExtension.cls_name := "AndFilter";
     TypeExtension.cls_annotations :=
       Some [("AND", AType (TClass "int")); ("name", AType (TClass "str"))];
     TypeExtension.cls_attributes := [] |}.

(** A class body with [name: str] and a method [color]. *)
Definition FruitType : TypeExtension.PyClass :=
  {| TypeExtension.cls_name := "FruitType";
     TypeExtension.cls_annotations := Some [("name", AType (TClass "str"))];
     TypeExtension.cls_attributes := ["color"] |}.

(** The annotations the engine computes for the placeholder fields of the
    given names, as the tests read them off the decorated class. *)
Definition resolved_annotations (self : TypeExtension.DjangoTypeExtension)
    (names : list string) : list (string * result annotation) :=
  map
    (fun n =>
       (n,
        attrs <-
          TypeExtension._get_model_attrs identity true get_field field_type
            field_name self (declared n (AType TAuto)) ;;
        Ok (TypeExtension.attrs_type_annotation attrs)))
    names.

(** [strawberry_django.type(model, fields="__all__")], as in
    [tests/x_tst.py] *)
Definition all_fields_extension (model : Model)
  : TypeExtension.DjangoTypeExtension :=
  TypeExtension.__init__ defaults model None false false FilterFalse false
    false TypeExtension.FieldsAll None.

(** The definition of a plain type over [Fruit]. *)
Definition fruit_definition : DjangoObjectDefinition :=
  TypeExtension.create_object_definition identity defaults
    (type_extension Fruit) "FruitType" false None.

(** A managed field still annotated with the placeholder, on a class whose
    definition is available. *)
Definition auto_descriptor (name : string) : Field :=
  {| kind := StrawberryDjangoField; Definitions.name := name;
     python_name := Some name; django_name := Some None;
     description := None; type_ := AType TAuto;
     type_annotation := Some (AType TAuto);
     Definitions.is_relation := false;
     default := MISSING; default_factory := MISSING;
     default_value := MISSING; base_resolver := None;
     base_resolver_type := None; origin := Some "FruitType";
     origin_definition := Some fruit_definition;
     _django_definition := None |}.


(** Two types backed by a model, and a union of both. *)
Definition FruitNode : ty := TObject "FruitNode" (Some "Fruit").
Definition ColorNode : ty := TObject "ColorNode" (Some "Color").
Definition FruitOrColor : ty := TUnion [FruitNode; ColorNode].

(** A base dataclass, a mixin that is no dataclass, and a class deriving
    from both, as [get_annotations] reads them. *)
Definition BaseInput : AnnotatedClass :=
  {| class_module := "app.base"; is_dataclass := true;
     class_annotations :=
       [("id", AType TAuto); ("name", AType (TClass "str"))] |}.

Definition Mixin : AnnotatedClass :=
  {| class_module := "app.mixins"; is_dataclass := false;
     class_annotations := [("secret", AType (TClass "str"))] |}.

Definition DerivedInput : AnnotatedClass :=
  {| class_module := "app.types"; is_dataclass := true;
     class_annotations := [("name", AType (TOptional (TClass "str")))] |}.

Definition no_classvars (c : AnnotatedClass) (a : annotation) : bool := false.

(** A node type that overrides [resolve_id] itself and inherits the rest,
    [resolve_node] from a parent type the engine has already decorated. *)
Definition FruitNodeClass : TypeExtension.DataClass :=
  {| TypeExtension.dataclass_name := "FruitNode";
     TypeExtension.subclasses_Node := true;
     TypeExtension.class_methods :=
       [ ("resolve_id", TypeExtension.BoundMethod "FruitNode.resolve_id"
                          "FruitNode");
         ("resolve_id_attr", TypeExtension.BoundMethod
                               "relay.Node.resolve_id_attr" "FruitNode");
         ("resolve_node", TypeExtension.BoundMethod "resolve_model_node"
                            "ParentNode");
         ("resolve_nodes", TypeExtension.BoundMethod
                             "relay.Node.resolve_nodes" "FruitNode") ] |}.

(** A node type whose [resolve_id] is a static method. *)
Definition StaticNodeClass : TypeExtension.DataClass :=
  {| TypeExtension.dataclass_name := "StaticNode";
     TypeExtension.subclasses_Node := true;
     TypeExtension.class_methods :=
       [ ("resolve_id", TypeExtension.PlainAttribute "resolve_id");
         ("resolve_id_attr", TypeExtension.BoundMethod
                               "relay.Node.resolve_id_attr" "StaticNode");
         ("resolve_node", TypeExtension.BoundMethod
                            "relay.Node.resolve_node" "StaticNode");
         ("resolve_nodes", TypeExtension.BoundMethod
                             "relay.Node.resolve_nodes" "StaticNode") ] |}.

(** A connection over [FruitNode] that is itself backed by the model. *)
Definition FruitConnection : ty :=
  TConnection "FruitConnection" (Some "Fruit") (Some FruitNode) None None.

(** A schema field with a description and an explicit type, without a
    resolver. *)
Definition described (name : string) (a : annotation) (text : string)
  : Field :=
  {| kind := StrawberryField; Definitions.name := name;
     python_name := Some name; django_name := None;
     description := Some text; type_ := a;
     type_annotation := Some a; Definitions.is_relation := false;
     default := MISSING; default_factory := MISSING;
     default_value := MISSING; base_resolver := None;
     base_resolver_type := None; origin := None;
     origin_definition := None; _django_definition := None |}.

End Fixtures.

(** * Properties *)

(** ** Dictionaries and lists *)

Section DictFacts.

Context {V : Type}.

Lemma dict_get_set_same (d : dict V) (k : string) (v : V) :
  dict_get (dict_set d k v) k = Some v.
Proof.
  induction d as [|[k' v'] rest IH]; simpl.
  - now rewrite String.eqb_refl.
  - destruct (String.eqb k' k) eqn:E; simpl; rewrite E; auto.
Qed.

Lemma dict_get_set_other (d : dict V) (k k' : string) (v : V) :
  k <> k' -> dict_get (dict_set d k v) k' = dict_get d k'.
Proof.
  intros Hne.
  induction d as [|[k0 v0] rest IH]; simpl.
  - destruct (String.eqb k k') eqn:E; auto.
    apply String.eqb_eq in E. contradiction.
  - destruct (String.eqb k0 k) eqn:E; simpl.
    + apply String.eqb_eq in E. subst k0.
      destruct (String.eqb k k') eqn:E'; auto.
      apply String.eqb_eq in E'. contradiction.
    + now rewrite IH.
Qed.

Lemma dict_set_absent (d : dict V) (k : string) (v : V) :
  dict_get d k = None -> dict_set d k v = (d ++ [(k, v)])%list.
Proof.
  induction d as [|[k' v'] rest IH]; simpl; intros H; auto.
  destruct (String.eqb k' k); [discriminate|].
  now rewrite IH.
Qed.

Lemma dict_contains_false (d : dict V) (k : string) :
  dict_contains d k = false <-> dict_get d k = None.
Proof.
  unfold dict_contains. destruct (dict_get d k); split; congruence.
Qed.

End DictFacts.

Lemma mem_In (x : string) (xs : list string) : mem x xs = true <-> In x xs.
Proof.
  unfold mem. rewrite existsb_exists. split.
  - intros [y [Hin Heq]]. apply String.eqb_eq in Heq. now subst.
  - intros Hin. exists x. split; auto. apply String.eqb_refl.
Qed.

Lemma map_filter_comm {A B : Type} (f : A -> B) (p : B -> bool)
    (l : list A) :
  map f (filter (fun a => p (f a)) l) = filter p (map f l).
Proof.
  induction l as [|a l IH]; simpl; auto.
  destruct (p (f a)); simpl; now rewrite IH.
Qed.

Lemma list_remove_incl (x n : string) (xs : list string) :
  In n (list_remove x xs) -> In n xs.
Proof.
  induction xs as [|y ys IH]; simpl; auto.
  destruct (String.eqb y x); simpl; intuition.
Qed.

Lemma list_remove_NoDup (x n : string) (xs : list string) :
  NoDup xs -> (In n (list_remove x xs) <-> In n xs /\ n <> x).
Proof.
  induction xs as [|y ys IH]; simpl; intros Hnd.
  - tauto.
  - inversion Hnd as [|? ? Hnotin Hnd']; subst.
    destruct (String.eqb y x) eqn:E.
    + apply String.eqb_eq in E. subst y. split.
      * intros Hin. split; auto. intros ->. contradiction.
      * intros [[Heq|Hin] Hne]; [congruence|assumption].
    + apply String.eqb_neq in E. simpl. rewrite (IH Hnd'). split.
      * intros [Heq|[Hin Hne]]; [subst; auto|auto].
      * intros [[Heq|Hin] Hne]; auto.
Qed.

(** ** The selection of model field names *)

Import TypeExtension.

Lemma select_names_filter (model : Model) (names : list string)
    (exclude : option (list string)) :
  select_names model (FieldsList names) exclude
  = filter (fun n => mem n names) (map Models.name (meta_fields model)).
Proof.
  unfold select_names.
  apply (map_filter_comm Models.name (fun n => mem n names)).
Qed.

Lemma select_names_concrete (model : Model) (fields : fields_arg)
    (exclude : option (list string)) (n : string) :
  In n (select_names model fields exclude) ->
  In n (map Models.name (meta_fields model)).
Proof.
  unfold select_names.
  destruct fields as [| |names].
  - destruct exclude as [ex|]; [|intros []].
    destruct (Nat.ltb 0 (List.length ex)); [|intros []].
    rewrite (map_filter_comm Models.name (fun n => negb (mem n ex))).
    intros H. apply filter_In in H. tauto.
  - auto.
  - rewrite (map_filter_comm Models.name (fun n => mem n names)).
    intros H. apply filter_In in H. tauto.
Qed.

Lemma select_names_NoDup (model : Model) (fields : fields_arg)
    (exclude : option (list string)) :
  NoDup (map Models.name (meta_fields model)) ->
  NoDup (select_names model fields exclude).
Proof.
  intros Hnd. unfold select_names.
  destruct fields as [| |names].
  - destruct exclude as [ex|]; [|constructor].
    destruct (Nat.ltb 0 (List.length ex)); [|constructor].
    rewrite (map_filter_comm Models.name (fun n => negb (mem n ex))).
    now apply NoDup_filter.
  - assumption.
  - rewrite (map_filter_comm Models.name (fun n => mem n names)).
    now apply NoDup_filter.
Qed.

Lemma model_field_names_incl (settings : Settings) (model : Model)
    (fields : fields_arg) (exclude : option (list string)) (n : string) :
  In n (model_field_names settings model fields exclude) ->
  In n (select_names model fields exclude).
Proof.
  unfold model_field_names.
  destruct (MAP_AUTO_ID_AS_GLOBAL_ID settings
            && mem "id" (select_names model fields exclude)); auto.
  apply list_remove_incl.
Qed.

Lemma model_field_names_spec (settings : Settings) (model : Model)
    (fields : fields_arg) (exclude : option (list string)) (n : string) :
  NoDup (map Models.name (meta_fields model)) ->
  In n (model_field_names settings model fields exclude)
  <-> In n (select_names model fields exclude)
      /\ (MAP_AUTO_ID_AS_GLOBAL_ID settings = true -> n <> "id").
Proof.
  intros Hnd. unfold model_field_names.
  destruct (MAP_AUTO_ID_AS_GLOBAL_ID settings) eqn:Hset; simpl.
  - destruct (mem "id" (select_names model fields exclude)) eqn:Hmem.
    + rewrite list_remove_NoDup by now apply select_names_NoDup.
      intuition.
    + split; [|tauto]. intros Hin. split; auto.
      intros _ ->. apply mem_In in Hin. congruence.
  - split; [|tauto]. intros Hin. split; auto. discriminate.
Qed.

Lemma list_remove_absent (x : string) (xs : list string) :
  mem x xs = false -> list_remove x xs = xs.
Proof.
  induction xs as [|y ys IH]; simpl; auto.
  destruct (String.eqb y x) eqn:E; simpl.
  - rewrite String.eqb_sym, E. discriminate.
  - rewrite String.eqb_sym, E. simpl. intros H. now rewrite IH.
Qed.

Lemma model_field_names_remove (settings : Settings) (model : Model)
    (fields : fields_arg) (exclude : option (list string)) :
  model_field_names settings model fields exclude
  = if MAP_AUTO_ID_AS_GLOBAL_ID settings
    then list_remove "id" (select_names model fields exclude)
    else select_names model fields exclude.
Proof.
  unfold model_field_names.
  destruct (MAP_AUTO_ID_AS_GLOBAL_ID settings); simpl; auto.
  destruct (mem "id" (select_names model fields exclude)) eqn:Hmem; auto.
  symmetry. now apply list_remove_absent.
Qed.

(** C10, the claim put to the test: with the setting that maps [id] to a
    global id, the explicit list [["id"; "name"]] over [Fruit], both of them
    concrete fields of the model, leaves the engine with [name] alone, and
    ["__all__"] leaves it with every concrete field but [id]. *)
Lemma explicit_list_loses_id :
  MAP_AUTO_ID_AS_GLOBAL_ID Fixtures.global_ids = true
  /\ map Models.name (meta_fields Fixtures.Fruit)
     = ["id"; "name"; "color"; "maker"]
  /\ _model_field_names
       (__init__ Fixtures.global_ids Fixtures.Fruit None false false
          FilterFalse false false (FieldsList ["id"; "name"]) None)
     = ["name"]
  /\ _model_field_names
       (__init__ Fixtures.global_ids Fixtures.Fruit None false false
          FilterFalse false false FieldsAll None)
     = ["name"; "color"; "maker"].
Proof.
  repeat split.
Qed.

(** C10, amended: the names the engine keeps for injection are names of
    concrete fields of the model, whatever the selection; a many-to-many
    field or a reverse relation is therefore never among them, also under
    ["__all__"]. ["__all__"] keeps the concrete fields, an explicit list the
    concrete names it contains, in the order of the model, a name the model
    does not have being dropped; in both cases [id] is taken out when the
    setting maps it to a global id. An empty exclusion list keeps nothing,
    as no selection does. *)
Theorem auto_names_are_concrete_fields :
  forall (settings : Settings) (model : Model) (name : option string)
         (is_input is_partial : bool) (is_filter : filter_flag)
         (pagination disable_optimization : bool),
    let concrete := map Models.name (meta_fields model) in
    let stored fields exclude :=
      _model_field_names
        (__init__ settings model name is_input is_partial is_filter
           pagination disable_optimization fields exclude) in
    let without_id names :=
      if MAP_AUTO_ID_AS_GLOBAL_ID settings then list_remove "id" names
      else names in
    (forall fields exclude n, In n (stored fields exclude) -> In n concrete)
    /\ (forall fields exclude f,
           In f (meta_many_to_many model ++ meta_related_objects model)%list ->
           ~ In (Models.name f) concrete ->
           ~ In (Models.name f) (stored fields exclude))
    /\ (forall exclude, stored FieldsAll exclude = without_id concrete)
    /\ (forall names exclude,
           stored (FieldsList names) exclude
           = without_id (filter (fun n => mem n names) concrete))
    /\ stored FieldsNone (Some []) = []
    /\ stored FieldsNone (Some []) = stored FieldsNone None.
Proof.
  intros settings model name is_input is_partial is_filter pagination
         disable_optimization concrete stored without_id.
  assert (Hincl : forall fields exclude n,
             In n (stored fields exclude) -> In n concrete).
  { intros fields exclude n Hin.
    apply (select_names_concrete model fields exclude).
    now apply (model_field_names_incl settings). }
  split; [exact Hincl|].
  split; [intros fields exclude f _ Hnot Hin; apply Hnot;
          now apply (Hincl fields exclude)|].
  split.
  { intros exclude. unfold stored, without_id. cbn [_model_field_names __init__].
    now rewrite model_field_names_remove. }
  split.
  { intros names exclude. unfold stored, without_id.
    cbn [_model_field_names __init__].
    now rewrite model_field_names_remove, select_names_filter. }
  unfold stored. cbn [_model_field_names __init__].
  rewrite !model_field_names_remove. simpl.
  destruct (MAP_AUTO_ID_AS_GLOBAL_ID settings); auto.
Qed.

Lemma auto_names_are_concrete_fields_witness :
  ~ In "types"
      (_model_field_names
         (__init__ Fixtures.defaults Fixtures.Fruit None false false
            FilterFalse false false FieldsAll None))
  /\ ~ In "tastings"
        (_model_field_names
           (__init__ Fixtures.defaults Fixtures.Fruit None false false
              FilterFalse false false FieldsAll None)).
Proof.
  split.
  - apply (proj1 (proj2
             (auto_names_are_concrete_fields Fixtures.defaults Fixtures.Fruit
                None false false FilterFalse false false))
             FieldsAll None Fixtures.types_field).
    + simpl. auto.
    + simpl. intros [H|[H|[H|[H|[]]]]]; discriminate.
  - apply (proj1 (proj2
             (auto_names_are_concrete_fields Fixtures.defaults Fixtures.Fruit
                None false false FilterFalse false false))
             FieldsAll None Fixtures.tastings_rel).
    + simpl. auto.
    + simpl. intros [H|[H|[H|[H|[]]]]]; discriminate.
Defined.

(** ** The before phase *)

Lemma inject_auto_keeps (names attributes : list string)
    (d : dict annotation) (k : string) (a : annotation) :
  dict_get d k = Some a ->
  dict_get (inject_auto names attributes d) k = Some a.
Proof.
  revert d. induction names as [|x names IH]; simpl; intros d Hget; auto.
  apply IH.
  destruct (dict_contains d x || mem x attributes) eqn:E; auto.
  apply orb_false_iff in E. destruct E as [Hc _].
  apply dict_contains_false in Hc.
  rewrite dict_get_set_other; auto.
  intros ->. congruence.
Qed.

Lemma inject_auto_adds (names attributes : list string)
    (d : dict annotation) (k : string) :
  In k names -> dict_get d k = None -> mem k attributes = false ->
  dict_get (inject_auto names attributes d) k = Some (AType TAuto).
Proof.
  revert d. induction names as [|x names IH]; simpl; intros d Hin Hget Hattr.
  - contradiction.
  - destruct (String.eqb x k) eqn:Exk.
    + apply String.eqb_eq in Exk. subst x.
      apply dict_contains_false in Hget. rewrite Hget, Hattr. simpl.
      apply inject_auto_keeps. apply dict_get_set_same.
    + apply String.eqb_neq in Exk.
      destruct Hin as [Heq|Hin]; [contradiction|].
      apply IH; auto.
      destruct (dict_contains d x || mem x attributes); auto.
      now rewrite dict_get_set_other.
Qed.

Lemma inject_auto_absent (names attributes : list string)
    (d : dict annotation) (k : string) :
  dict_get d k = None -> ~ In k names \/ mem k attributes = true ->
  dict_get (inject_auto names attributes d) k = None.
Proof.
  revert d. induction names as [|x names IH]; simpl; intros d Hget Hor; auto.
  apply IH.
  - destruct (dict_contains d x || mem x attributes) eqn:E; auto.
    rewrite dict_get_set_other; auto.
    intros ->. apply orb_false_iff in E. destruct E as [_ Hm].
    destruct Hor as [Hnot|Hattr]; [apply Hnot; auto|congruence].
  - destruct Hor as [Hnot|Hattr]; auto.
Qed.

(** C8: before the class becomes a dataclass the hook leaves as its
    annotations the declared ones with the placeholders added (and, on a
    filterable type, the boilerplate stored over that). In the annotations
    with the placeholders added, every selected name that the class neither
    annotates nor has as an attribute is the placeholder, every declared
    annotation is as it was, and nothing else is added. The selected names
    are those the field list, ["__all__"] or a non-empty exclusion list
    give, without ["id"] when identifiers are mapped to global ones. *)
Theorem before_phase_injects_placeholders :
  forall (to_camel_case : string -> string) (self : DjangoTypeExtension)
         (cls : PyClass),
    let declared :=
      match cls_annotations cls with Some d => d | None => [] end in
    let injected :=
      inject_auto (_model_field_names self) (cls_attributes cls) declared in
    cls_annotations (snd (on_wrap_dataclass to_camel_case self cls))
    = Some (if truthy (is_filter self)
            then dict_update injected filter_boilerplate
            else injected)
    /\ (forall n,
           (In n (_model_field_names self) ->
            dict_get declared n = None ->
            mem n (cls_attributes cls) = false ->
            dict_get injected n = Some (AType TAuto))
           /\ (forall a,
                  dict_get declared n = Some a -> dict_get injected n = Some a)
           /\ (dict_get declared n = None ->
               ~ In n (_model_field_names self)
               \/ mem n (cls_attributes cls) = true ->
               dict_get injected n = None))
    /\ (forall settings model name is_input is_partial is_filter pagination
               disable_optimization fields exclude n,
           NoDup (map Models.name (meta_fields model)) ->
           In n (_model_field_names
                   (__init__ settings model name is_input is_partial is_filter
                      pagination disable_optimization fields exclude))
           <-> In n (select_names model fields exclude)
               /\ (MAP_AUTO_ID_AS_GLOBAL_ID settings = true -> n <> "id")).
Proof.
  intros to_camel_case self cls declared injected.
  split; [|split].
  - unfold on_wrap_dataclass. simpl. fold declared. fold injected.
    destruct (truthy (is_filter self)); reflexivity.
  - intros n. split; [|split].
    + apply inject_auto_adds.
    + intros a. apply inject_auto_keeps.
    + apply inject_auto_absent.
  - intros. simpl. now apply model_field_names_spec.
Qed.

Lemma before_phase_injects_placeholders_witness :
  dict_get
    (inject_auto
       (_model_field_names (Fixtures.all_fields_extension Fixtures.Fruit))
       (cls_attributes Fixtures.FruitType)
       [("name", AType (TClass "str"))])
    "maker"
  = Some (AType TAuto)
  /\ dict_get
       (inject_auto
          (_model_field_names (Fixtures.all_fields_extension Fixtures.Fruit))
          (cls_attributes Fixtures.FruitType)
          [("name", AType (TClass "str"))])
       "name"
     = Some (AType (TClass "str"))
  /\ dict_get
       (inject_auto
          (_model_field_names (Fixtures.all_fields_extension Fixtures.Fruit))
          (cls_attributes Fixtures.FruitType)
          [("name", AType (TClass "str"))])
       "color"
     = None.
Proof.
  pose proof (proj1 (proj2
                (before_phase_injects_placeholders Fixtures.identity
                   (Fixtures.all_fields_extension Fixtures.Fruit)
                   Fixtures.FruitType))) as H.
  split; [|split].
  - apply (proj1 (H "maker")); [simpl; auto 6|reflexivity|reflexivity].
  - apply (proj1 (proj2 (H "name"))). reflexivity.
  - apply (proj2 (proj2 (H "color"))); [reflexivity|right; reflexivity].
Defined.

(** ** The boilerplate of a filterable type *)

Lemma dict_get_app {V : Type} (d d' : dict V) (k : string) :
  dict_get (d ++ d')%list k
  = match dict_get d k with
    | Some v => Some v
    | None => dict_get d' k
    end.
Proof.
  induction d as [|[k' v'] rest IH]; simpl; auto.
  destruct (String.eqb k' k); auto.
Qed.

Lemma dict_update_boilerplate_fresh (d : dict annotation) :
  (forall k, In k (keys filter_boilerplate) -> dict_get d k = None) ->
  dict_update d filter_boilerplate = (d ++ filter_boilerplate)%list.
Proof.
  intros Hfresh. unfold dict_update, filter_boilerplate. simpl.
  assert (Hget : forall d' k,
             In k (keys filter_boilerplate) ->
             dict_get d' k = None -> dict_get (d ++ d')%list k = None).
  { intros d' k Hk Hd'. now rewrite dict_get_app, (Hfresh k Hk). }
  rewrite (dict_set_absent d) by (apply Hfresh; simpl; auto).
  rewrite (dict_set_absent (d ++ _)%list)
    by (apply Hget; [simpl; auto|reflexivity]).
  rewrite <- app_assoc.
  rewrite (dict_set_absent (d ++ _)%list)
    by (apply Hget; [simpl; auto|reflexivity]).
  rewrite <- app_assoc.
  rewrite (dict_set_absent (d ++ _)%list)
    by (apply Hget; [simpl; auto 6|reflexivity]).
  now rewrite <- app_assoc.
Qed.

Lemma dict_update_boilerplate_get (d : dict annotation) (k : string)
    (a : annotation) :
  In (k, a) filter_boilerplate ->
  dict_get (dict_update d filter_boilerplate) k = Some a.
Proof.
  unfold dict_update, filter_boilerplate. simpl.
  intros [H|[H|[H|[H|[]]]]]; inversion H; subst; clear H;
    repeat first
      [ apply dict_get_set_same
      | rewrite dict_get_set_other by discriminate ].
Qed.

(** C4, the claim put to the test: a filter class that itself declares
    [AND] ahead of another field gets three added fields, not four, and
    [AND] stays where the class body has it, ahead of the declared
    [name]. *)
Lemma filter_boilerplate_declared_name :
  cls_annotations
    (snd (on_wrap_dataclass Fixtures.identity
            (Fixtures.filter_extension Fixtures.Fruit) Fixtures.AndFilter))
  = Some [ ("AND", AType (TOptional TSelf));
           ("name", AType (TClass "str"));
           ("OR", AType (TOptional TSelf));
           ("NOT", AType (TOptional TSelf));
           ("DISTINCT", AType (TOptional (TClass "bool"))) ]
  /\ cls_annotations
       (snd (on_wrap_dataclass Fixtures.identity
               (Fixtures.filter_extension Fixtures.Fruit) Fixtures.AndFilter))
     <> Some ([ ("AND", AType (TClass "int"));
                ("name", AType (TClass "str")) ] ++ filter_boilerplate)%list.
Proof.
  split; [reflexivity|].
  vm_compute. discriminate.
Qed.

(** C4, amended: on a filterable type whose own annotations and selected
    model names contain none of [AND], [OR], [NOT] and [DISTINCT], the hook
    leaves the declared and model-derived annotations followed by exactly
    these four, the first three as an optional reference to the type itself
    and the last as an optional boolean. On every filterable type each of
    the four names ends up with that annotation. *)
Theorem filter_boilerplate_appended :
  forall (to_camel_case : string -> string) (self : DjangoTypeExtension)
         (cls : PyClass),
    let declared :=
      match cls_annotations cls with Some d => d | None => [] end in
    let injected :=
      inject_auto (_model_field_names self) (cls_attributes cls) declared in
    truthy (is_filter self) = true ->
    (forall k a,
        In (k, a) filter_boilerplate ->
        exists after,
          cls_annotations (snd (on_wrap_dataclass to_camel_case self cls))
          = Some after
          /\ dict_get after k = Some a)
    /\ ((forall k,
            In k ["AND"; "OR"; "NOT"; "DISTINCT"] ->
            dict_get declared k = None /\ ~ In k (_model_field_names self)) ->
        cls_annotations (snd (on_wrap_dataclass to_camel_case self cls))
        = Some (injected
                ++ [ ("AND", AType (TOptional TSelf));
                     ("OR", AType (TOptional TSelf));
                     ("NOT", AType (TOptional TSelf));
                     ("DISTINCT", AType (TOptional (TClass "bool"))) ])%list).
Proof.
  intros to_camel_case self cls declared injected Hfilter.
  assert (Hafter :
            cls_annotations (snd (on_wrap_dataclass to_camel_case self cls))
            = Some (dict_update injected filter_boilerplate)).
  { unfold on_wrap_dataclass. simpl. rewrite Hfilter. reflexivity. }
  split.
  - intros k a Hin. eexists. split; [exact Hafter|].
    now apply dict_update_boilerplate_get.
  - intros Hfresh. rewrite Hafter. f_equal.
    apply dict_update_boilerplate_fresh.
    intros k Hk. destruct (Hfresh k Hk) as [Hdecl Hnot].
    apply inject_auto_absent; auto.
Qed.

Lemma filter_boilerplate_appended_witness :
  cls_annotations
    (snd (on_wrap_dataclass Fixtures.identity
            (Fixtures.filter_extension Fixtures.Fruit) Fixtures.NameFilter))
  = Some [ ("name", AType TAuto);
           ("AND", AType (TOptional TSelf));
           ("OR", AType (TOptional TSelf));
           ("NOT", AType (TOptional TSelf));
           ("DISTINCT", AType (TOptional (TClass "bool"))) ].
Proof.
  apply (proj2 (filter_boilerplate_appended Fixtures.identity
                  (Fixtures.filter_extension Fixtures.Fruit)
                  Fixtures.NameFilter eq_refl)).
  intros k Hk. split.
  - simpl in Hk.
    destruct Hk as [<-|[<-|[<-|[<-|[]]]]]; reflexivity.
  - simpl. tauto.
Defined.

(** ** Fields resolved from the model *)



Lemma is_auto_not_private (a : annotation) :
  is_auto a = true -> is_private a = false.
Proof.
  destruct a as [t|s]; simpl; auto.
  destruct t; simpl; auto; discriminate.
Qed.

Section EngineFacts.

Variable cleandoc : string -> string.
Variable contenttypes_available : bool.
Variable get_model_field : Model -> string -> option ModelField.
Variable resolve_model_field_type : ModelField -> definition_attrs -> ty.
Variable resolve_model_field_name :
  ModelField -> bool -> bool -> bool -> string.

Let get_model_attrs :=
  _get_model_attrs cleandoc contenttypes_available get_model_field
    resolve_model_field_type resolve_model_field_name.

Let hook :=
  on_field cleandoc contenttypes_available get_model_field
    resolve_model_field_type resolve_model_field_name.

Lemma get_model_attrs_of_field (self : DjangoTypeExtension) (field : Field)
    (model_attr target : ModelField) :
  get_model_field (model self) (model_name_of field) = Some model_attr ->
  type_source (python_name_of field) model_attr = Ok target ->
  exists attrs,
    get_model_attrs self field = Ok attrs
    /\ attrs_type_annotation attrs
       = AType (FieldsTypes.optional_if
                  (FieldsTypes.is_optional model_attr (is_input self)
                     (is_partial self))
                  (resolve_model_field_type target self))
    /\ attrs_is_relation attrs = Models.is_relation model_attr.
Proof.
  intros Hget Hsrc. unfold get_model_attrs, _get_model_attrs.
  rewrite Hget, Hsrc. simpl. eexists. repeat split.
Qed.

Lemma on_field_auto_raises (self : DjangoTypeExtension) (field : Field)
    (e : error) :
  is_auto (type_ field) = true ->
  get_model_attrs self field = Raise e ->
  hook self field = Raise e.
Proof.
  intros Hauto Hraise. unfold hook, on_field.
  rewrite (is_auto_not_private _ Hauto), Hauto.
  fold get_model_attrs. now rewrite Hraise.
Qed.

End EngineFacts.

(** [test_input_type] and [test_input_type_for_partial_update] of
    [tests/fields/test_input.py] *)
Example test_input_type :
  Fixtures.resolved_annotations
    (Fixtures.input_extension Fixtures.InputFieldsModel false)
    ["id"; "mandatory"; "default"; "blank"; "null"]
  = [ ("id", Ok (AType (TOptional (TClass "ID"))));
      ("mandatory", Ok (AType (TClass "int")));
      ("default", Ok (AType (TOptional (TClass "int"))));
      ("blank", Ok (AType (TOptional (TClass "int"))));
      ("null", Ok (AType (TOptional (TClass "int")))) ].
Proof. reflexivity. Qed.

Example test_input_type_for_partial_update :
  Fixtures.resolved_annotations
    (Fixtures.input_extension Fixtures.InputFieldsModel true)
    ["id"; "mandatory"; "default"; "blank"; "null"]
  = [ ("id", Ok (AType (TOptional (TClass "ID"))));
      ("mandatory", Ok (AType (TOptional (TClass "int"))));
      ("default", Ok (AType (TOptional (TClass "int"))));
      ("blank", Ok (AType (TOptional (TClass "int"))));
      ("null", Ok (AType (TOptional (TClass "int")))) ].
Proof. reflexivity. Qed.




(** ** The descriptor's lazy resolution *)

Import FieldsBase.

Lemma django_definition_cached (self self1 : Field)
    (d : option DjangoObjectDefinition) :
  django_definition self = (d, self1) ->
  type_annotation self1 = type_annotation self
  /\ python_name self1 = python_name self
  /\ lookup_name self1 = lookup_name self
  /\ base_resolver self1 = base_resolver self
  /\ base_resolver_type self1 = base_resolver_type self
  /\ Definitions.is_relation self1 = Definitions.is_relation self
  /\ _django_definition self1 = d
  /\ (d = None -> self1 = self)
  /\ django_definition self1 = (d, self1).
Proof.
  unfold django_definition.
  destruct (_django_definition self) as [d0|] eqn:Hc.
  - intros H. inversion H; subst. rewrite Hc.
    repeat split; auto; discriminate.
  - destruct (origin_definition self) as [d0|] eqn:Ho;
      intros H; inversion H; subst; simpl; try rewrite Hc, Ho;
      repeat split; auto; discriminate.
Qed.

Lemma unwrap_type_optional_if (b : bool) (t : ty) :
  unwrap_type (FieldsTypes.optional_if b t) = unwrap_type t.
Proof. destruct b; reflexivity. Qed.

Lemma not_auto_of_unwrap (t : ty) :
  is_any_or_auto (unwrap_type t) = false -> t <> TAuto.
Proof. intros H ->. discriminate. Qed.

Lemma django_definition_of_cache (self : Field) (d : DjangoObjectDefinition) :
  _django_definition self = Some d -> django_definition self = (Some d, self).
Proof. intros H. unfold django_definition. now rewrite H. Qed.

Section DescriptorFacts.

Variable namespace : string -> option ty.
Variable get_model_field : Model -> string -> option ModelField.
Variable resolve_model_field_type : ModelField -> definition_attrs -> ty.

(** A pass over a type that is neither the placeholder nor [Any]. *)
Lemma resolve_type_at_concrete (depth : nat) (self self1 : Field) (t : ty)
    (django_def : DjangoObjectDefinition) :
  StrawberryField_resolve_type namespace self = Resolved t ->
  django_definition self = (Some django_def, self1) ->
  is_any_or_auto (unwrap_type t) = false ->
  resolve_type_at namespace get_model_field resolve_model_field_type
    (S depth) self
  = Ok (Resolved t, self1, 0).
Proof.
  intros Hbase Hdef Hconc. cbn [resolve_type_at].
  rewrite Hbase, Hdef. cbv zeta. rewrite Hconc.
  destruct t; try reflexivity. discriminate.
Qed.

Lemma resolve_type_concrete (self self1 : Field) (t : ty)
    (django_def : DjangoObjectDefinition) :
  StrawberryField_resolve_type namespace self = Resolved t ->
  django_definition self = (Some django_def, self1) ->
  is_any_or_auto (unwrap_type t) = false ->
  resolve_type namespace get_model_field resolve_model_field_type self
  = Ok (Resolved t, self1, 0).
Proof.
  unfold resolve_type. change recursion_limit with (S 499).
  apply resolve_type_at_concrete.
Qed.

(** Once the model has been consulted and the type it gave still unwraps
    to the placeholder or [Any], every further round finds the field as the
    round before left it, and the calls nest until none is allowed. *)
Lemma resolve_type_at_stuck (django_def : DjangoObjectDefinition)
    (model_field target : ModelField) (p n : string) :
  get_model_field (model django_def) n = Some model_field ->
  type_source p model_field = Ok target ->
  let resolved_type :=
    FieldsTypes.optional_if
      (FieldsTypes.is_optional model_field (is_input django_def)
         (is_partial django_def))
      (resolve_model_field_type target django_def) in
  is_any_or_auto (unwrap_type resolved_type) = true ->
  forall (depth : nat) (self : Field),
    type_annotation self = Some (AType resolved_type) ->
    _django_definition self = Some django_def ->
    lookup_name self = n ->
    python_name self = Some p ->
    resolve_type_at namespace get_model_field resolve_model_field_type
      depth self
    = Raise RecursionError.
Proof.
  intros Hget Hsrc resolved_type Hauto depth.
  induction depth as [|depth IH]; intros self Hann Hdef Hname Hp;
    [reflexivity|].
  cbn [resolve_type_at].
  unfold StrawberryField_resolve_type at 1. rewrite Hann.
  unfold django_definition. rewrite Hdef. cbv zeta.
  rewrite Hauto, Hname, Hget, Hp. cbn [bind]. rewrite Hsrc. cbn [bind].
  unfold StrawberryField_type. fold resolved_type.
  rewrite IH; auto.
Qed.

(** The pass that consults the model. *)
Lemma resolve_type_at_lookup (depth : nat) (self self1 : Field) (t : ty)
    (django_def : DjangoObjectDefinition) (model_field target : ModelField)
    (p : string) :
  StrawberryField_resolve_type namespace self = Resolved t ->
  django_definition self = (Some django_def, self1) ->
  is_any_or_auto (unwrap_type t) = true ->
  get_model_field (model django_def) (lookup_name self) = Some model_field ->
  python_name self = Some p ->
  type_source p model_field = Ok target ->
  let resolved_type :=
    FieldsTypes.optional_if
      (FieldsTypes.is_optional model_field (is_input django_def)
         (is_partial django_def))
      (resolve_model_field_type target django_def) in
  resolve_type_at namespace get_model_field resolve_model_field_type
    (S (S depth)) self
  = if is_any_or_auto (unwrap_type resolved_type)
    then Raise RecursionError
    else Ok (auto_to_unresolved (Resolved resolved_type),
             set_type_annotation self1 (Some (AType resolved_type)), 1).
Proof.
  intros Hbase Hdef Hauto Hget Hp Hsrc resolved_type.
  destruct (django_definition_cached self Hdef)
    as [_ [Hp1 [Hl1 [_ [_ [_ [Hcache _]]]]]]].
  remember (S depth) as inner eqn:Hinner.
  cbn [resolve_type_at].
  rewrite Hbase, Hdef. cbv zeta. rewrite Hauto, Hl1, Hget, Hp1, Hp.
  cbn [bind]. rewrite Hsrc. cbn [bind].
  unfold StrawberryField_type. fold resolved_type. subst inner.
  destruct (is_any_or_auto (unwrap_type resolved_type)) eqn:Hstill.
  - rewrite (@resolve_type_at_stuck django_def model_field target p
               (lookup_name self) Hget Hsrc Hstill (S depth)
               (set_type_annotation self1 (Some (AType resolved_type))));
      auto.
    simpl. now rewrite Hp1.
  - rewrite (@resolve_type_at_concrete depth
               (set_type_annotation self1 (Some (AType resolved_type)))
               (set_type_annotation self1 (Some (AType resolved_type)))
               resolved_type django_def); auto.
    apply django_definition_of_cache. exact Hcache.
Qed.

Lemma resolve_type_lookup (self self1 : Field) (t : ty)
    (django_def : DjangoObjectDefinition) (model_field target : ModelField)
    (p : string) :
  StrawberryField_resolve_type namespace self = Resolved t ->
  django_definition self = (Some django_def, self1) ->
  is_any_or_auto (unwrap_type t) = true ->
  get_model_field (model django_def) (lookup_name self) = Some model_field ->
  python_name self = Some p ->
  type_source p model_field = Ok target ->
  let resolved_type :=
    FieldsTypes.optional_if
      (FieldsTypes.is_optional model_field (is_input django_def)
         (is_partial django_def))
      (resolve_model_field_type target django_def) in
  resolve_type namespace get_model_field resolve_model_field_type self
  = if is_any_or_auto (unwrap_type resolved_type)
    then Raise RecursionError
    else Ok (auto_to_unresolved (Resolved resolved_type),
             set_type_annotation self1 (Some (AType resolved_type)), 1).
Proof.
  unfold resolve_type. change recursion_limit with (S (S 498)).
  apply resolve_type_at_lookup.
Qed.

(** Every outcome of [resolve_type], the nested call resolved. *)
Lemma resolve_type_outcome (self : Field) :
  resolve_type namespace get_model_field resolve_model_field_type self
  = match StrawberryField_resolve_type namespace self with
    | UNRESOLVED => Ok (UNRESOLVED, self, 0)
    | Resolved t =>
        match django_definition self with
        | (None, self1) => Ok (Resolved t, self1, 0)
        | (Some django_def, self1) =>
            if is_any_or_auto (unwrap_type t) then
              match
                get_model_field (model django_def) (lookup_name self)
              with
              | None => Raise FieldDoesNotExist
              | Some model_field =>
                  match python_name self with
                  | None => Raise (AttributeError "endswith")
                  | Some p =>
                      match type_source p model_field with
                      | Raise e => Raise e
                      | Ok target =>
                          let resolved_type :=
                            FieldsTypes.optional_if
                              (FieldsTypes.is_optional model_field
                                 (is_input django_def)
                                 (is_partial django_def))
                              (resolve_model_field_type target django_def) in
                          if is_any_or_auto (unwrap_type resolved_type)
                          then Raise RecursionError
                          else Ok (auto_to_unresolved
                                     (Resolved resolved_type),
                                   set_type_annotation self1
                                     (Some (AType resolved_type)), 1)
                      end
                  end
              end
            else Ok (auto_to_unresolved (Resolved t), self1, 0)
        end
    end.
Proof.
  destruct (StrawberryField_resolve_type namespace self) as [|t] eqn:Hbase.
  { unfold resolve_type. change recursion_limit with (S 499).
    cbn [resolve_type_at]. now rewrite Hbase. }
  destruct (django_definition self) as [[django_def|] self1] eqn:Hdef.
  2:{ unfold resolve_type. change recursion_limit with (S 499).
      cbn [resolve_type_at]. now rewrite Hbase, Hdef. }
  destruct (django_definition_cached self Hdef) as [_ [Hp1 [Hl1 _]]].
  destruct (is_any_or_auto (unwrap_type t)) eqn:Hauto.
  - destruct (get_model_field (model django_def) (lookup_name self))
      as [model_field|] eqn:Hget.
    + destruct (python_name self) as [p|] eqn:Hp.
      * destruct (type_source p model_field) as [target|e] eqn:Hsrc.
        -- apply (resolve_type_lookup self Hbase Hdef Hauto Hget Hp Hsrc).
        -- unfold resolve_type. change recursion_limit with (S 499).
           cbn [resolve_type_at]. rewrite Hbase, Hdef. cbv zeta.
           rewrite ?Hauto, ?Hl1, ?Hget, ?Hp1, ?Hp. cbn [bind].
           now rewrite Hsrc.
      * unfold resolve_type. change recursion_limit with (S 499).
        cbn [resolve_type_at]. rewrite Hbase, Hdef. cbv zeta.
        now rewrite ?Hauto, ?Hl1, ?Hget, ?Hp1, ?Hp.
    + unfold resolve_type. change recursion_limit with (S 499).
      cbn [resolve_type_at]. rewrite Hbase, Hdef. cbv zeta.
      now rewrite ?Hauto, ?Hl1, ?Hget.
  - unfold resolve_type. change recursion_limit with (S 499).
    cbn [resolve_type_at]. rewrite Hbase, Hdef. cbv zeta.
    now rewrite Hauto.
Qed.

End DescriptorFacts.

(** C3: for a field whose python name ends in ["_id"] and whose model
    attribute is a foreign key, the type that is resolved is the type of the
    key the relation points at ([target_field]), whatever the type of the
    relation itself: the engine returns it as the annotation, and so does the
    descriptor when it consults the model, in both places under the optional
    wrapper when the optionality rule asks for one. (A key type that itself
    unwraps to the placeholder or [Any] sends the descriptor into its nested
    calls until the interpreter stops them.) *)
Theorem fk_id_resolves_to_key_type :
  (forall (cleandoc : string -> string) (contenttypes_available : bool)
          (get_model_field : Model -> string -> option ModelField)
          (resolve_model_field_type : ModelField -> definition_attrs -> ty)
          (resolve_model_field_name :
             ModelField -> bool -> bool -> bool -> string)
          (self : DjangoTypeExtension) (field : Field)
          (model_attr key : ModelField),
      get_model_field (model self) (model_name_of field) = Some model_attr ->
      endswith (python_name_of field) "_id" = true ->
      isinstance_ForeignKey model_attr = true ->
      target_field model_attr = Some key ->
      type_source (python_name_of field) model_attr = Ok key
      /\ exists attrs,
          _get_model_attrs cleandoc contenttypes_available get_model_field
            resolve_model_field_type resolve_model_field_name self field
          = Ok attrs
          /\ attrs_type_annotation attrs
             = AType (FieldsTypes.optional_if
                        (FieldsTypes.is_optional model_attr (is_input self)
                           (is_partial self))
                        (resolve_model_field_type key self)))
  /\ (forall (namespace : string -> option ty)
             (get_model_field : Model -> string -> option ModelField)
             (resolve_model_field_type : ModelField -> definition_attrs -> ty)
             (self self1 : Field) (t : ty)
             (django_def : DjangoObjectDefinition)
             (model_field key : ModelField) (p : string),
         StrawberryField_resolve_type namespace self = Resolved t ->
         django_definition self = (Some django_def, self1) ->
         is_any_or_auto (unwrap_type t) = true ->
         get_model_field (model django_def) (lookup_name self)
         = Some model_field ->
         python_name self = Some p ->
         endswith p "_id" = true ->
         isinstance_ForeignKey model_field = true ->
         target_field model_field = Some key ->
         resolve_type namespace get_model_field resolve_model_field_type self
         = if is_any_or_auto
                (unwrap_type
                   (FieldsTypes.optional_if
                      (FieldsTypes.is_optional model_field
                         (is_input django_def) (is_partial django_def))
                      (resolve_model_field_type key django_def)))
           then Raise RecursionError
           else
             Ok (auto_to_unresolved
                   (Resolved
                      (FieldsTypes.optional_if
                         (FieldsTypes.is_optional model_field
                            (is_input django_def) (is_partial django_def))
                         (resolve_model_field_type key django_def))),
                 set_type_annotation self1
                   (Some
                      (AType
                         (FieldsTypes.optional_if
                            (FieldsTypes.is_optional model_field
                               (is_input django_def) (is_partial django_def))
                            (resolve_model_field_type key django_def)))),
                 1)).
Proof.
  split.
  - intros cleandoc contenttypes_available get_model_field
           resolve_model_field_type resolve_model_field_name self field
           model_attr key Hget Hsuffix Hfk Hkey.
    assert (Hsrc : type_source (python_name_of field) model_attr = Ok key).
    { unfold type_source, is_fk_id. now rewrite Hsuffix, Hfk, Hkey. }
    split; [exact Hsrc|].
    destruct (get_model_attrs_of_field cleandoc contenttypes_available
                get_model_field resolve_model_field_type
                resolve_model_field_name self field Hget Hsrc)
      as [attrs [Hok [Hann _]]].
    exists attrs. split; assumption.
  - intros namespace get_model_field resolve_model_field_type self self1 t
           django_def model_field key p Hbase Hdef Hauto Hget Hp Hsuffix Hfk
           Hkey.
    apply (resolve_type_lookup namespace get_model_field
             resolve_model_field_type self Hbase Hdef Hauto Hget Hp).
    unfold type_source, is_fk_id. now rewrite Hsuffix, Hfk, Hkey.
Qed.

Lemma fk_id_resolves_to_key_type_witness :
  (exists attrs,
      _get_model_attrs Fixtures.identity true Fixtures.get_field
        Fixtures.field_type Fixtures.field_name
        (Fixtures.type_extension Fixtures.Fruit)
        (Fixtures.declared "maker_id" (AType TAuto))
      = Ok attrs
      /\ attrs_type_annotation attrs = AType (TClass "ID"))
  /\ resolve_type Fixtures.no_names Fixtures.get_field Fixtures.field_type
       (Fixtures.auto_descriptor "color_id")
     = Ok (Resolved (TOptional (TClass "ID")),
           set_type_annotation
             (set_django_definition (Fixtures.auto_descriptor "color_id")
                (Some Fixtures.fruit_definition))
             (Some (AType (TOptional (TClass "ID")))),
           1).
Proof.
  split.
  - destruct (proj1 fk_id_resolves_to_key_type Fixtures.identity true
                Fixtures.get_field Fixtures.field_type Fixtures.field_name
                (Fixtures.type_extension Fixtures.Fruit)
                (Fixtures.declared "maker_id" (AType TAuto))
                Fixtures.maker_field Fixtures.id_field
                eq_refl eq_refl eq_refl eq_refl)
      as [_ [attrs [Hok Hann]]].
    exists attrs. split; [exact Hok|exact Hann].
  - rewrite (proj2 fk_id_resolves_to_key_type Fixtures.no_names
               Fixtures.get_field Fixtures.field_type
               (Fixtures.auto_descriptor "color_id")
               (set_django_definition
                  (Fixtures.auto_descriptor "color_id")
                  (Some Fixtures.fruit_definition))
               TAuto Fixtures.fruit_definition Fixtures.color_field
               Fixtures.id_field "color_id"
               eq_refl eq_refl eq_refl eq_refl eq_refl eq_refl eq_refl
               eq_refl).
    reflexivity.
Defined.

(** ** Failures at decoration *)

(** C7: when the name of a placeholder field is not a field of the model
    and the model class has under that name nothing, or something that is
    no property, computing the model attributes raises
    [FieldDoesNotExist]; when it has a property or cached property without
    a return annotation, it raises [MissingFieldAnnotationError] naming the
    attribute and the class. In both cases the hook that runs for the field
    while the class is decorated raises the same error: nothing catches
    it. *)
Theorem missing_attribute_fails_at_decoration :
  forall (cleandoc : string -> string) (contenttypes_available : bool)
         (get_model_field : Model -> string -> option ModelField)
         (resolve_model_field_type : ModelField -> definition_attrs -> ty)
         (resolve_model_field_name :
            ModelField -> bool -> bool -> bool -> string)
         (self : DjangoTypeExtension) (field : Field),
    is_auto (type_ field) = true ->
    get_model_field (model self) (model_name_of field) = None ->
    let found := dict_get (class_attrs (model self)) (model_name_of field) in
    let get_model_attrs :=
      _get_model_attrs cleandoc contenttypes_available get_model_field
        resolve_model_field_type resolve_model_field_name in
    let hook :=
      on_field cleandoc contenttypes_available get_model_field
        resolve_model_field_type resolve_model_field_name in
    ((found = None \/ exists truthy, found = Some (COther truthy)) ->
     get_model_attrs self field = Raise FieldDoesNotExist
     /\ hook self field = Raise FieldDoesNotExist)
    /\ ((exists doc,
            found = Some (CProperty None doc)
            \/ found = Some (CCachedProperty None doc)) ->
        get_model_attrs self field
        = Raise (MissingFieldAnnotationError (model_name_of field)
                   (_origin self))
        /\ hook self field
           = Raise (MissingFieldAnnotationError (model_name_of field)
                      (_origin self))).
Proof.
  intros cleandoc contenttypes_available get_model_field
         resolve_model_field_type resolve_model_field_name self field
         Hauto Hget found get_model_attrs hook.
  split.
  - intros Hfound.
    assert (Hraise : get_model_attrs self field = Raise FieldDoesNotExist).
    { unfold get_model_attrs, _get_model_attrs. rewrite Hget. fold found.
      destruct Hfound as [->|[b ->]]; [reflexivity|].
      destruct b; reflexivity. }
    split; [exact Hraise|].
    now apply on_field_auto_raises.
  - intros [doc Hfound].
    assert (Hraise :
              get_model_attrs self field
              = Raise (MissingFieldAnnotationError (model_name_of field)
                         (_origin self))).
    { unfold get_model_attrs, _get_model_attrs. rewrite Hget. fold found.
      destruct Hfound as [->| ->]; reflexivity. }
    split; [exact Hraise|].
    now apply on_field_auto_raises.
Qed.

Lemma missing_attribute_fails_at_decoration_witness :
  on_field Fixtures.identity true Fixtures.get_field Fixtures.field_type
    Fixtures.field_name (Fixtures.type_extension Fixtures.Fruit)
    (Fixtures.declared "colour" (AType TAuto))
  = Raise FieldDoesNotExist
  /\ on_field Fixtures.identity true Fixtures.get_field Fixtures.field_type
       Fixtures.field_name (Fixtures.type_extension Fixtures.Fruit)
       (Fixtures.declared "label" (AType TAuto))
     = Raise (MissingFieldAnnotationError "label" None).
Proof.
  split.
  - apply (proj1 (missing_attribute_fails_at_decoration Fixtures.identity
                    true Fixtures.get_field Fixtures.field_type
                    Fixtures.field_name
                    (Fixtures.type_extension Fixtures.Fruit)
                    (Fixtures.declared "colour" (AType TAuto))
                    eq_refl eq_refl)).
    left. reflexivity.
  - apply (proj2 (missing_attribute_fails_at_decoration Fixtures.identity
                    true Fixtures.get_field Fixtures.field_type
                    Fixtures.field_name
                    (Fixtures.type_extension Fixtures.Fruit)
                    (Fixtures.declared "label" (AType TAuto))
                    eq_refl eq_refl)).
    exists None. left. reflexivity.
Defined.

(** ** Unions *)

Lemma on_field_not_auto (cleandoc : string -> string)
    (contenttypes_available : bool)
    (get_model_field : Model -> string -> option ModelField)
    (resolve_model_field_type : ModelField -> definition_attrs -> ty)
    (resolve_model_field_name : ModelField -> bool -> bool -> bool -> string)
    (self : DjangoTypeExtension) (field : Field) :
  is_auto (type_ field) = false ->
  exists field',
    on_field cleandoc contenttypes_available get_model_field
      resolve_model_field_type resolve_model_field_name self field
    = Ok field'.
Proof.
  intros Hauto. unfold on_field. rewrite Hauto.
  destruct (is_private (type_ field)); [eexists; reflexivity|].
  simpl.
  destruct (kind field); destruct (base_resolver field);
    eexists; reflexivity.
Qed.

(** C2, the claim put to the test: a field declared with a union of two
    types that are both backed by a model goes through the decoration hook
    without an error, and the descriptor's [django_type] is then "no
    match". *)
Lemma ambiguous_union_is_accepted :
  exists field',
    on_field Fixtures.identity true Fixtures.get_field Fixtures.field_type
      Fixtures.field_name (Fixtures.type_extension Fixtures.Fruit)
      (Fixtures.declared "owner" (AType Fixtures.FruitOrColor))
    = Ok field'
    /\ django_type Fixtures.no_names Fixtures.get_field Fixtures.field_type
         field'
       = Ok None.
Proof.
  eexists. split; reflexivity.
Qed.

(** C2, amended: resolving the model-backed type of a union raises nothing.
    It gives the single member that, once its containers are opened, is
    backed by a model, and "no match" when there is none or more than one;
    and the decoration hook accepts a field annotated with any union. *)
Theorem union_resolution_falls_back :
  forall (types : list ty),
    django_type_of (Resolved (TUnion types))
    = Ok (match filter (fun t => has_django_definition (Some t))
                  (map strip_containers types)
          with
          | [candidate] => Some candidate
          | _ => None
          end)
    /\ forall (cleandoc : string -> string) (contenttypes_available : bool)
              (get_model_field : Model -> string -> option ModelField)
              (resolve_model_field_type :
                 ModelField -> definition_attrs -> ty)
              (resolve_model_field_name :
                 ModelField -> bool -> bool -> bool -> string)
              (self : DjangoTypeExtension) (field : Field),
        type_ field = AType (TUnion types) ->
        exists field',
          on_field cleandoc contenttypes_available get_model_field
            resolve_model_field_type resolve_model_field_name self field
          = Ok field'.
Proof.
  intros types. split.
  - change (django_type_of (Resolved (TUnion types)))
      with (Ok (A := option ty)
              (let origin :=
                 match filter (fun t => has_django_definition (Some t))
                         (map strip_containers types)
                 with
                 | [o] => Some o
                 | _ => None
                 end in
               if has_django_definition origin then origin else None)).
    destruct (filter (fun t => has_django_definition (Some t))
                (map strip_containers types)) as [|o [|o' rest]] eqn:Hf;
      try reflexivity.
    assert (Hin : In o (filter (fun t => has_django_definition (Some t))
                          (map strip_containers types)))
      by (rewrite Hf; simpl; auto).
    apply filter_In in Hin. destruct Hin as [_ Hdj].
    cbv zeta. now rewrite Hdj.
  - intros cleandoc contenttypes_available get_model_field
           resolve_model_field_type resolve_model_field_name self field Hty.
    apply on_field_not_auto. now rewrite Hty.
Qed.

Lemma union_resolution_falls_back_witness :
  exists field',
    on_field Fixtures.identity true Fixtures.get_field Fixtures.field_type
      Fixtures.field_name (Fixtures.type_extension Fixtures.Fruit)
      (Fixtures.declared "owner" (AType Fixtures.FruitOrColor))
    = Ok field'.
Proof.
  apply (proj2 (union_resolution_falls_back
                  [Fixtures.FruitNode; Fixtures.ColorNode])
           Fixtures.identity true Fixtures.get_field Fixtures.field_type
           Fixtures.field_name (Fixtures.type_extension Fixtures.Fruit)
           (Fixtures.declared "owner" (AType Fixtures.FruitOrColor))).
  reflexivity.
Defined.

(** ** Memoised resolution *)

(** C5: a call of [resolve_type] that returns has consulted the model at
    most once, and it changes the type slot only when it does. When it
    yields a concrete type (one that does not unwrap to the placeholder or
    [Any]), a second call on the field as the first left it yields the same
    type, consults the model no more and leaves the field as it is: the slot
    is cached and every later call repeats the second. A call that does not
    consult the model is repeated in the same way, whatever it yields. *)
Theorem resolve_type_idempotent :
  forall (namespace : string -> option ty)
         (get_model_field : Model -> string -> option ModelField)
         (resolve_model_field_type : ModelField -> definition_attrs -> ty)
         (self self1 : Field) (r : resolved) (lookups : nat),
    resolve_type namespace get_model_field resolve_model_field_type self
    = Ok (r, self1, lookups) ->
    lookups <= 1
    /\ (lookups = 0 ->
        type_annotation self1 = type_annotation self
        /\ resolve_type namespace get_model_field resolve_model_field_type
             self1
           = Ok (r, self1, 0))
    /\ (forall t,
           r = Resolved t ->
           is_any_or_auto (unwrap_type t) = false ->
           resolve_type namespace get_model_field resolve_model_field_type
             self1
           = Ok (Resolved t, self1, 0)).
Proof.
  intros namespace get_model_field resolve_model_field_type self self1 r
         lookups Hcall.
  rewrite resolve_type_outcome in Hcall.
  destruct (StrawberryField_resolve_type namespace self) as [|t0] eqn:Hbase.
  { (* nothing to resolve yet *)
    inversion Hcall; subst.
    assert (Hagain :
              resolve_type namespace get_model_field resolve_model_field_type
                self1
              = Ok (UNRESOLVED, self1, 0))
      by (rewrite resolve_type_outcome; now rewrite Hbase).
    repeat split; auto. discriminate. }
  destruct (django_definition self) as [[django_def|] self'] eqn:Hdef.
  2:{ (* the class has no definition yet *)
      inversion Hcall; subst.
      destruct (django_definition_cached self Hdef)
        as [Hann [_ [_ [_ [_ [_ [_ [Hsame _]]]]]]]].
      rewrite (Hsame eq_refl) in *.
      assert (Hagain :
                resolve_type namespace get_model_field
                  resolve_model_field_type self
                = Ok (Resolved t0, self, 0))
        by (rewrite resolve_type_outcome; now rewrite Hbase, Hdef).
      repeat split; auto.
      intros t Ht _. inversion Ht; subst. exact Hagain. }
  destruct (django_definition_cached self Hdef)
    as [Hann [_ [_ [Hbr [Hbrt [_ [Hcache [_ Hagain]]]]]]]].
  assert (Hbase' : StrawberryField_resolve_type namespace self' = Resolved t0).
  { unfold StrawberryField_resolve_type in *.
    now rewrite Hann, Hbr, Hbrt. }
  destruct (is_any_or_auto (unwrap_type t0)) eqn:Hauto.
  - (* the model is consulted *)
    destruct (get_model_field (model django_def) (lookup_name self))
      as [model_field|]; [|discriminate].
    destruct (python_name self) as [p|]; [|discriminate].
    destruct (type_source p model_field) as [target|]; [|discriminate].
    cbv zeta in Hcall.
    set (resolved_type :=
           FieldsTypes.optional_if
             (FieldsTypes.is_optional model_field (is_input django_def)
                (is_partial django_def))
             (resolve_model_field_type target django_def)) in *.
    destruct (is_any_or_auto (unwrap_type resolved_type)) eqn:Hstill;
      [discriminate|].
    inversion Hcall; subst. clear Hcall.
    split; [auto|]. split; [discriminate|].
    intros t Ht Hconc.
    assert (t = resolved_type).
    { destruct resolved_type; inversion Ht; reflexivity. }
    subst t.
    apply resolve_type_concrete with (django_def := django_def); auto.
    apply django_definition_of_cache. simpl. exact Hcache.
  - (* a concrete type was already there *)
    assert (Hnot : t0 <> TAuto) by now apply not_auto_of_unwrap.
    assert (Hr : auto_to_unresolved (Resolved t0) = Resolved t0)
      by (destruct t0; auto; congruence).
    rewrite Hr in Hcall. inversion Hcall; subst. clear Hcall.
    assert (Hsecond :
              resolve_type namespace get_model_field resolve_model_field_type
                self1
              = Ok (Resolved t0, self1, 0))
      by now apply resolve_type_concrete with (django_def := django_def).
    repeat split; auto.
    intros t Ht _. inversion Ht; subst. exact Hsecond.
Qed.

Lemma resolve_type_idempotent_witness :
  resolve_type Fixtures.no_names Fixtures.get_field Fixtures.field_type
    (set_type_annotation
       (set_django_definition (Fixtures.auto_descriptor "maker_id")
          (Some Fixtures.fruit_definition))
       (Some (AType (TClass "ID"))))
  = Ok (Resolved (TClass "ID"),
        set_type_annotation
          (set_django_definition (Fixtures.auto_descriptor "maker_id")
             (Some Fixtures.fruit_definition))
          (Some (AType (TClass "ID"))),
        0).
Proof.
  apply (proj2 (proj2
           (resolve_type_idempotent Fixtures.no_names Fixtures.get_field
              Fixtures.field_type (Fixtures.auto_descriptor "maker_id")
              (r := Resolved (TClass "ID")) (lookups := 1) eq_refl))
           (TClass "ID") eq_refl eq_refl).
Defined.

(** ** Deferred resolution *)



(** ** The derived flags of a descriptor *)

(** C9, the claim put to the test: after decoration the fields [maker_id]
    (the column of a foreign key) and [id] of a type over [Fruit] have the
    same resolved type, the scalar [ID], yet the first is flagged as a
    relation and the second is not. *)
Lemma is_relation_not_read_from_type :
  exists maker_id id,
    on_field Fixtures.identity true Fixtures.get_field Fixtures.field_type
      Fixtures.field_name (Fixtures.type_extension Fixtures.Fruit)
      (Fixtures.declared "maker_id" (AType TAuto))
    = Ok maker_id
    /\ on_field Fixtures.identity true Fixtures.get_field Fixtures.field_type
         Fixtures.field_name (Fixtures.type_extension Fixtures.Fruit)
         (Fixtures.declared "id" (AType TAuto))
       = Ok id
    /\ type Fixtures.no_names Fixtures.get_field Fixtures.field_type maker_id
       = Ok (Resolved (TClass "ID"))
    /\ type Fixtures.no_names Fixtures.get_field Fixtures.field_type id
       = Ok (Resolved (TClass "ID"))
    /\ Definitions.is_relation maker_id = true
    /\ Definitions.is_relation id = false.
Proof.
  do 2 eexists. repeat split.
Qed.

Lemma resolve_type_keeps_is_relation
    (namespace : string -> option ty)
    (get_model_field : Model -> string -> option ModelField)
    (resolve_model_field_type : ModelField -> definition_attrs -> ty)
    (self self1 : Field) (r : resolved) (lookups : nat) :
  resolve_type namespace get_model_field resolve_model_field_type self
  = Ok (r, self1, lookups) ->
  Definitions.is_relation self1 = Definitions.is_relation self.
Proof.
  intros Hcall. rewrite resolve_type_outcome in Hcall.
  destruct (StrawberryField_resolve_type namespace self) as [|t0];
    [now inversion Hcall|].
  destruct (django_definition self) as [[django_def|] self'] eqn:Hdef;
    destruct (django_definition_cached self Hdef)
      as [_ [_ [_ [_ [_ [Hrel _]]]]]];
    [|inversion Hcall; now subst].
  destruct (is_any_or_auto (unwrap_type t0));
    [|inversion Hcall; now subst].
  destruct (get_model_field (model django_def) (lookup_name self))
    as [model_field|]; [|discriminate].
  destruct (python_name self) as [p|]; [|discriminate].
  destruct (type_source p model_field) as [target|]; [|discriminate].
  cbv zeta in Hcall.
  destruct (is_any_or_auto _); [discriminate|].
  inversion Hcall; subst. exact Hrel.
Qed.

(** C9, amended: [is_optional], [is_list] and [is_connection] are functions
    of the value [self.type] has: the first holds iff the type is an
    optional, the other two iff the type, with at most one optional wrapper
    taken off, is a list, respectively a connection class. [is_relation] is
    not computed from the type: it is a stored flag that resolving the type
    leaves alone, and that decoration sets, for a placeholder field resolved
    from a model attribute, to that attribute's own relation flag. *)
Theorem derived_flags :
  forall (namespace : string -> option ty)
         (get_model_field : Model -> string -> option ModelField)
         (resolve_model_field_type : ModelField -> definition_attrs -> ty)
         (self self1 : Field) (r : resolved) (lookups : nat),
    resolve_type namespace get_model_field resolve_model_field_type self
    = Ok (r, self1, lookups) ->
    (is_optional namespace get_model_field resolve_model_field_type self
     = Ok (is_optional_of r)
     /\ is_list namespace get_model_field resolve_model_field_type self
        = Ok (is_list_of r)
     /\ is_connection namespace get_model_field resolve_model_field_type self
        = Ok (is_connection_of r))
    /\ (is_optional_of r = true <-> exists t, r = Resolved (TOptional t))
    /\ (is_list_of r = true <-> exists t, without_optional r = Some (TList t))
    /\ (is_connection_of r = true
        <-> exists name django_model m1 m2 m3,
            without_optional r
            = Some (TConnection name django_model m1 m2 m3))
    /\ Definitions.is_relation self1 = Definitions.is_relation self
    /\ (forall (cleandoc : string -> string) (contenttypes_available : bool)
               (resolve_model_field_name :
                  ModelField -> bool -> bool -> bool -> string)
               (extension : DjangoTypeExtension) (field : Field)
               (model_attr target : ModelField),
           is_auto (type_ field) = true ->
           kind field <> StrawberryField ->
           get_model_field (model extension) (model_name_of field)
           = Some model_attr ->
           type_source (python_name_of field) model_attr = Ok target ->
           exists field',
             on_field cleandoc contenttypes_available get_model_field
               resolve_model_field_type resolve_model_field_name extension
               field
             = Ok field'
             /\ Definitions.is_relation field'
                = Models.is_relation model_attr).
Proof.
  intros namespace get_model_field resolve_model_field_type self self1 r
         lookups Hcall.
  split; [|split; [|split; [|split; [|split]]]].
  - unfold is_optional, is_list, is_connection, type.
    rewrite Hcall. simpl. repeat split.
  - split.
    + destruct r as [|[]]; simpl; try discriminate. eauto.
    + intros [t ->]. reflexivity.
  - split.
    + destruct r as [|t]; simpl; try discriminate.
      destruct t; simpl; try discriminate; eauto.
      destruct t; simpl; try discriminate; eauto.
    + destruct r as [|t]; simpl; [intros [t H]; discriminate|].
      destruct t; simpl; intros [u H]; inversion H; subst; reflexivity.
  - split.
    + destruct r as [|t]; simpl; try discriminate.
      destruct t; simpl; try discriminate; eauto 6.
      destruct t; simpl; try discriminate; eauto 6.
    + destruct r as [|t]; simpl;
        [intros [n [d [m1 [m2 [m3 H]]]]]; discriminate|].
      destruct t; simpl; intros [n [d [m1 [m2 [m3 H]]]]];
        inversion H; subst; reflexivity.
  - now apply (resolve_type_keeps_is_relation _ _ _ _ Hcall).
  - intros cleandoc contenttypes_available resolve_model_field_name
           extension field model_attr target Hauto Hkind Hget Hsrc.
    destruct (get_model_attrs_of_field cleandoc contenttypes_available
                get_model_field resolve_model_field_type
                resolve_model_field_name extension field Hget Hsrc)
      as [attrs [Hok [_ Hrel]]].
    unfold on_field.
    rewrite (is_auto_not_private _ Hauto), Hauto, Hok. simpl.
    destruct (kind field) eqn:Hk; [| congruence |].
    + eexists. split; [reflexivity|].
      unfold input_default.
      destruct (is_input extension && _ && _); simpl; exact Hrel.
    + eexists. split; [reflexivity|].
      unfold input_default.
      destruct (is_input extension && _ && _); simpl; exact Hrel.
Qed.

Lemma derived_flags_witness :
  is_optional Fixtures.no_names Fixtures.get_field Fixtures.field_type
    (Fixtures.auto_descriptor "color")
  = Ok true
  /\ is_list Fixtures.no_names Fixtures.get_field Fixtures.field_type
       (Fixtures.auto_descriptor "types")
     = Ok true.
Proof.
  split.
  - apply (proj1 (proj1
             (derived_flags Fixtures.no_names Fixtures.get_field
                Fixtures.field_type (Fixtures.auto_descriptor "color")
                (r := Resolved (TOptional (TObject "DjangoModelType" None)))
                (lookups := 1) eq_refl))).
  - apply (proj1 (proj2 (proj1
             (derived_flags Fixtures.no_names Fixtures.get_field
                Fixtures.field_type (Fixtures.auto_descriptor "types")
                (r := Resolved (TList (TObject "DjangoModelType" None)))
                (lookups := 1) eq_refl)))).
Defined.

(** * Further properties of the code *)

(** ** Typing helpers *)

Lemma unwrap_type_shape (t : ty) :
  is_lazy (unwrap_type t) = false /\ is_container (unwrap_type t) = false.
Proof. induction t; simpl; auto. Qed.

(** X1: [unwrap_type] ends on a type that is neither lazy nor a container,
    so unwrapping twice is unwrapping once; and it sees through what the
    inner loop of [django_type] opens. *)
Theorem unwrap_type_idempotent :
  forall t : ty,
    is_lazy (unwrap_type t) = false
    /\ is_container (unwrap_type t) = false
    /\ unwrap_type (unwrap_type t) = unwrap_type t
    /\ unwrap_type (strip_containers t) = unwrap_type t
    /\ is_container (strip_containers t) = false.
Proof.
  intros t.
  destruct (unwrap_type_shape t) as [Hl Hc].
  repeat split; auto.
  - induction t; simpl; auto.
  - induction t; simpl; auto.
  - induction t; simpl; auto.
Qed.

(** X2: [get_type_from_lazy_annotation] answers [None] exactly when no
    argument after the first is a lazy reference; otherwise it answers with
    the first lazy reference, unwrapped, which is never a lazy type or a
    container. *)
Theorem lazy_annotation_first_reference :
  forall (first : ty) (rest : list annotated_arg),
    (get_type_from_lazy_annotation first rest = None
     <-> forall a, In a rest -> a = OtherArg)
    /\ (forall t,
           get_type_from_lazy_annotation first rest = Some t ->
           is_lazy t = false
           /\ is_container t = false
           /\ exists before forward_ref after,
               rest = (before ++ LazyReference forward_ref :: after)%list
               /\ (forall a, In a before -> a = OtherArg)
               /\ t = unwrap_type forward_ref).
Proof.
  intros first rest. split.
  - induction rest as [|a rest IH]; simpl.
    + split; [intros _ a []|reflexivity].
    + destruct a as [fr|].
      * split; [discriminate|].
        intros H. specialize (H (LazyReference fr) (or_introl eq_refl)).
        discriminate.
      * rewrite IH. split.
        -- intros H a [<-|Hin]; auto.
        -- intros H a Hin. apply H. now right.
  - induction rest as [|a rest IH]; simpl; intros t Ht.
    + discriminate.
    + destruct a as [fr|].
      * inversion Ht; subst. destruct (unwrap_type_shape fr) as [Hl Hc].
        repeat split; auto.
        exists [], fr, rest. repeat split. intros a [].
      * destruct (IH t Ht) as [Hl [Hc [before [fr [after [Hr [Hb Hu]]]]]]].
        repeat split; auto.
        exists (OtherArg :: before), fr, after. subst rest.
        repeat split; auto.
        intros a [<-|Hin]; auto.
Qed.

Lemma lazy_annotation_first_reference_witness :
  is_lazy (TObject "FruitNode" (Some "Fruit")) = false.
Proof.
  apply (proj2 (lazy_annotation_first_reference (TClass "FruitNode")
                  [OtherArg;
                   LazyReference (TLazy (TOptional Fixtures.FruitNode));
                   LazyReference (TClass "int")])
           Fixtures.FruitNode eq_refl).
Defined.

(** X3: the strict and the lenient reading of the definition agree on an
    object that has one, and only there: without it the strict reading
    raises [AttributeError] and the lenient one answers [None]. What
    [has_django_definition] says is which of the two cases holds. *)
Theorem get_django_definition_strictness :
  forall obj : option ty,
    (has_django_definition obj = true ->
     exists definition,
       get_django_definition obj true = Ok (Some definition)
       /\ get_django_definition obj false = Ok (Some definition))
    /\ (has_django_definition obj = false ->
        get_django_definition obj true
        = Raise (AttributeError "__strawberry_django_definition__")
        /\ get_django_definition obj false = Ok None).
Proof.
  intros [t|]; [|split; [discriminate|split; reflexivity]].
  destruct t as [ | | | | | | | | |n [d|]|n [d|] a b c]; simpl;
    (split;
     [ first [discriminate | intros _; eexists; split; reflexivity]
     | first [discriminate | intros _; split; reflexivity] ]).
Qed.

Lemma get_django_definition_strictness_witness :
  get_django_definition (Some (TClass "int")) true
  = Raise (AttributeError "__strawberry_django_definition__")
  /\ get_django_definition (Some (TClass "int")) false = Ok None.
Proof.
  apply (proj2 (get_django_definition_strictness (Some (TClass "int")))).
  reflexivity.
Defined.

(** ** Annotations along the resolution order *)

Lemma dict_get_In {V : Type} (d : dict V) (k : string) (v : V) :
  dict_get d k = Some v -> In (k, v) d.
Proof.
  induction d as [|[k' v'] rest IH]; simpl; [discriminate|].
  destruct (String.eqb k' k) eqn:E.
  - apply String.eqb_eq in E. intros H. inversion H; subst. now left.
  - intros H. right. now apply IH.
Qed.

Section AnnotationFacts.

Variable is_classvar : AnnotatedClass -> annotation -> bool.

Lemma collect_annotations_other (c : AnnotatedClass)
    (acc : dict (annotation * string)) (k : string) :
  ~ In k (keys (class_annotations c)) ->
  dict_get (collect_annotations is_classvar c acc) k = dict_get acc k.
Proof.
  unfold collect_annotations.
  generalize (class_annotations c) as entries. intros entries. revert acc.
  induction entries as [|[k0 v0] entries IH]; simpl; intros acc Hnot; auto.
  rewrite IH by tauto.
  destruct (is_classvar c v0); auto.
  apply dict_get_set_other. tauto.
Qed.

Lemma collect_annotations_own (c : AnnotatedClass)
    (acc : dict (annotation * string)) (k : string) (v : annotation) :
  NoDup (keys (class_annotations c)) ->
  In (k, v) (class_annotations c) ->
  is_classvar c v = false ->
  dict_get (collect_annotations is_classvar c acc) k
  = Some (v, class_module c).
Proof.
  unfold collect_annotations.
  generalize (class_annotations c) as entries. intros entries. revert acc.
  induction entries as [|[k0 v0] entries IH]; simpl; intros acc Hnd Hin Hcv.
  - contradiction.
  - inversion Hnd as [|? ? Hnotin Hnd']; subst.
    destruct Hin as [Heq|Hin].
    + inversion Heq; subst. rewrite Hcv.
      assert (Hother :
                forall acc',
                  dict_get
                    (fold_left
                       (fun acc0 kv =>
                          if is_classvar c (snd kv) then acc0
                          else dict_set acc0 (fst kv)
                                 (snd kv, class_module c))
                       entries acc') k
                  = dict_get acc' k).
      { clear - Hnotin. induction entries as [|[k1 v1] entries IH];
          simpl; intros acc'; auto.
        rewrite IH by (simpl in Hnotin; tauto).
        destruct (is_classvar c v1); auto.
        apply dict_get_set_other. simpl in Hnotin. tauto. }
      rewrite Hother. apply dict_get_set_same.
    + now apply IH.
Qed.

Lemma fold_dataclasses_filter (l : list AnnotatedClass)
    (acc : dict (annotation * string)) :
  fold_left
    (fun acc c =>
       if is_dataclass c then collect_annotations is_classvar c acc else acc)
    l acc
  = fold_left
      (fun acc c =>
         if is_dataclass c then collect_annotations is_classvar c acc else acc)
      (filter is_dataclass l) acc.
Proof.
  revert acc. induction l as [|c l IH]; simpl; intros acc; auto.
  destruct (is_dataclass c) eqn:E; simpl; [rewrite E|]; apply IH.
Qed.

End AnnotationFacts.

(** X4: in the annotations [get_annotations] collects, what the class
    itself annotates wins over what it inherits: a key the class annotates
    with something that is no class variable is bound to that annotation,
    with the class's own namespace; a key the class does not annotate is
    bound as it is for the bases alone. *)
Theorem get_annotations_own_wins :
  forall (is_classvar : AnnotatedClass -> annotation -> bool)
         (cls : AnnotatedClass) (bases : list AnnotatedClass) (k : string),
    (forall v,
        NoDup (keys (class_annotations cls)) ->
        dict_get (class_annotations cls) k = Some v ->
        is_classvar cls v = false ->
        dict_get (get_annotations is_classvar cls bases) k
        = Some (v, class_module cls))
    /\ (~ In k (keys (class_annotations cls)) ->
        forall bare,
          class_annotations bare = [] ->
          dict_get (get_annotations is_classvar cls bases) k
          = dict_get (get_annotations is_classvar bare bases) k).
Proof.
  intros is_classvar cls bases k. split.
  - intros v Hnd Hget Hcv. unfold get_annotations.
    apply collect_annotations_own; auto. now apply dict_get_In.
  - intros Hnot bare Hbare. unfold get_annotations.
    rewrite collect_annotations_other by assumption.
    unfold collect_annotations at 2. now rewrite Hbare.
Qed.

Lemma get_annotations_own_wins_witness :
  dict_get
    (get_annotations Fixtures.no_classvars Fixtures.DerivedInput
       [Fixtures.Mixin; Fixtures.BaseInput])
    "name"
  = Some (AType (TOptional (TClass "str")), "app.types").
Proof.
  apply (proj1 (get_annotations_own_wins Fixtures.no_classvars
                  Fixtures.DerivedInput [Fixtures.Mixin; Fixtures.BaseInput]
                  "name")).
  - simpl. constructor; [intros []|constructor].
  - reflexivity.
  - reflexivity.
Defined.

(** X5: a base that is no dataclass contributes nothing: the result is the
    one for the resolution order with such bases left out. The class itself
    is read whether it is a dataclass or not. *)
Theorem get_annotations_skips_plain_bases :
  forall (is_classvar : AnnotatedClass -> annotation -> bool)
         (cls : AnnotatedClass) (bases : list AnnotatedClass),
    get_annotations is_classvar cls bases
    = get_annotations is_classvar cls (filter is_dataclass bases).
Proof.
  intros is_classvar cls bases. unfold get_annotations.
  rewrite fold_dataclasses_filter, filter_rev. reflexivity.
Qed.

(** ** The model-backed type of a field *)

(** [django_type] outside its connection branch, and inside it. *)
Lemma django_type_of_plain (t : ty) :
  (forall n d a b c, resolve_lazy t <> TConnection n d a b c) ->
  django_type_of (Resolved t) = Ok (model_backed_of (resolve_lazy t)).
Proof.
  intros Hnot. unfold django_type_of.
  destruct (resolve_lazy t) eqn:E; try reflexivity.
  exfalso. eapply Hnot. reflexivity.
Qed.

Lemma django_type_of_connection (t : ty) (n : string) (d : option string)
    (a b c : option ty) :
  resolve_lazy t = TConnection n d a b c ->
  django_type_of (Resolved t)
  = match a, b, c with
    | Some o, _, _ | None, Some o, _ | None, None, Some o =>
        Ok (model_backed_of (resolve_lazy o))
    | None, None, None => Raise (KeyError "NodeType")
    end.
Proof.
  intros E. unfold django_type_of. rewrite E.
  destruct a; [reflexivity|]. destruct b; [reflexivity|].
  destruct c; reflexivity.
Qed.

Lemma model_backed_of_has_definition (origin o : ty) :
  model_backed_of origin = Some o -> has_django_definition (Some o) = true.
Proof.
  unfold model_backed_of. cbv zeta.
  match goal with
  | |- (if has_django_definition ?x then _ else _) = _ -> _ =>
      destruct (has_django_definition x) eqn:H; [|discriminate];
      intros Heq; rewrite Heq in H; exact H
  end.
Qed.

Lemma model_backed_of_unwrap (origin : ty) :
  model_backed_of (unwrap_type origin) = model_backed_of origin.
Proof.
  unfold model_backed_of.
  destruct (unwrap_type_idempotent origin) as [_ [_ [H _]]].
  now rewrite H.
Qed.

Lemma is_connection_dec (t : ty) :
  (exists n d a b c, t = TConnection n d a b c)
  \/ (forall n d a b c, t <> TConnection n d a b c).
Proof.
  destruct t; try (right; intros; discriminate).
  left. eauto 6.
Qed.

Lemma django_type_of_has_definition (self_type : resolved) (t : ty) :
  django_type_of self_type = Ok (Some t) ->
  has_django_definition (Some t) = true.
Proof.
  destruct self_type as [|origin]; [discriminate|].
  destruct (is_connection_dec (resolve_lazy origin))
    as [[n [d [a [b [c E]]]]]|Hnot].
  - rewrite (django_type_of_connection origin E).
    destruct a as [o|]; [|destruct b as [o|]; [|destruct c as [o|]]];
      try discriminate;
      intros H; injection H as H;
      eapply model_backed_of_has_definition; eassumption.
  - rewrite (django_type_of_plain origin Hnot).
    intros H. injection H as H.
    eapply model_backed_of_has_definition; eassumption.
Qed.

(** X6: whatever [django_type] answers with is a class that carries a
    model definition. *)
Theorem django_type_is_model_backed :
  forall (self_type : resolved) (t : ty),
    django_type_of self_type = Ok (Some t) ->
    has_django_definition (Some t) = true.
Proof.
  intros self_type t H.
  destruct self_type as [|origin]; [discriminate|].
  now apply (django_type_of_has_definition (Resolved origin)).
Qed.

Lemma django_type_is_model_backed_witness :
  has_django_definition (Some Fixtures.FruitNode) = true.
Proof.
  apply (django_type_is_model_backed
           (Resolved (TOptional (TList (TLazy Fixtures.FruitNode))))).
  reflexivity.
Defined.




(** X8: when the unwrapped type of a field is no connection class, the
    optional, list and lazy wrappers around it make no difference to
    [django_type]. *)
Theorem django_type_ignores_wrappers :
  forall t : ty,
    (forall n d a b c, unwrap_type t <> TConnection n d a b c) ->
    django_type_of (Resolved t) = django_type_of (Resolved (unwrap_type t))
    /\ django_type_of (Resolved (TOptional t)) = django_type_of (Resolved t)
    /\ django_type_of (Resolved (TList t)) = django_type_of (Resolved t)
    /\ django_type_of (Resolved (TLazy t)) = django_type_of (Resolved t).
Proof.
  intros t Hnot.
  assert (Hplain : forall u,
             unwrap_type u = unwrap_type t ->
             django_type_of (Resolved u) = Ok (model_backed_of t)).
  { intros u Hu. rewrite django_type_of_plain.
    - rewrite <- (model_backed_of_unwrap (resolve_lazy u)).
      replace (unwrap_type (resolve_lazy u)) with (unwrap_type t)
        by (rewrite <- Hu; destruct u; reflexivity).
      now rewrite model_backed_of_unwrap.
    - intros n d a b c E. apply (Hnot n d a b c). rewrite <- Hu.
      destruct u; simpl in E; try discriminate; simpl;
        first [exact E | subst; reflexivity]. }
  rewrite !Hplain; auto.
  destruct (unwrap_type_idempotent t) as [_ [_ [H _]]]. exact H.
Qed.

Lemma django_type_ignores_wrappers_witness :
  django_type_of (Resolved (TOptional (TList Fixtures.FruitNode)))
  = django_type_of (Resolved (TList Fixtures.FruitNode)).
Proof.
  apply (proj1 (proj2 (django_type_ignores_wrappers
                         (TList Fixtures.FruitNode)
                         ltac:(intros; discriminate)))).
Defined.

(** X9: a connection class is looked into only when it is the field's type
    itself (or a lazy reference to it). Under an optional or a list the
    connection class stands for itself: the answer is the class when it
    carries a model definition and "no match" otherwise, whatever its node
    type. *)
Theorem wrapped_connection_not_looked_into :
  forall (n : string) (d : option string) (a b c : option ty),
    let connection := TConnection n d a b c in
    django_type_of (Resolved (TOptional connection))
    = Ok (match d with Some _ => Some connection | None => None end)
    /\ django_type_of (Resolved (TList connection))
       = Ok (match d with Some _ => Some connection | None => None end)
    /\ forall node,
        a = Some node ->
        django_type_of (Resolved connection)
        = Ok (model_backed_of (resolve_lazy node))
        /\ django_type_of (Resolved (TLazy connection))
           = Ok (model_backed_of (resolve_lazy node)).
Proof.
  intros n d a b c connection.
  split; [|split].
  - destruct d; reflexivity.
  - destruct d; reflexivity.
  - intros node ->. split; reflexivity.
Qed.

Lemma wrapped_connection_not_looked_into_witness :
  django_type_of (Resolved Fixtures.FruitConnection)
  = Ok (Some Fixtures.FruitNode)
  /\ django_type_of (Resolved (TOptional Fixtures.FruitConnection))
     = Ok (Some Fixtures.FruitConnection).
Proof.
  split.
  - apply (proj2 (proj2 (wrapped_connection_not_looked_into "FruitConnection"
                           (Some "Fruit") (Some Fixtures.FruitNode) None
                           None))
             Fixtures.FruitNode eq_refl).
  - apply (proj1 (wrapped_connection_not_looked_into "FruitConnection"
                    (Some "Fruit") (Some Fixtures.FruitNode) None None)).
Defined.

(** X10: [django_model] is defined exactly where [django_type] is: reading
    the model off the definition never fails, it is [None] when there is no
    match, and the only error is the one [django_type] raises. *)
Theorem django_model_follows_django_type :
  forall self_type : resolved,
    match django_type_of self_type with
    | Ok (Some t) =>
        exists model,
          django_model_of self_type = Ok (Some model)
          /\ get_django_definition (Some t) false = Ok (Some model)
    | Ok None => django_model_of self_type = Ok None
    | Raise e => django_model_of self_type = Raise e
    end.
Proof.
  intros self_type. unfold django_model_of.
  destruct (django_type_of self_type) as [[t|]|e] eqn:E; simpl; auto.
  pose proof (django_type_of_has_definition self_type E) as Hdj.
  destruct t as [ | | | | | | | | |n [d|]|n [d|] a b c];
    try discriminate; eexists; split; reflexivity.
Qed.

(** ** More on the selection of names *)

Lemma filter_true {A : Type} (l : list A) : filter (fun _ => true) l = l.
Proof. induction l; simpl; congruence. Qed.

Lemma filter_false {A : Type} (l : list A) : filter (fun _ => false) l = [].
Proof. induction l; simpl; auto. Qed.

Lemma filter_filter {A : Type} (p q : A -> bool) (l : list A) :
  filter q (filter p l) = filter (fun a => p a && q a) l.
Proof.
  induction l as [|a l IH]; simpl; auto.
  destruct (p a); simpl; [destruct (q a)|]; now rewrite IH.
Qed.

Lemma list_remove_filter (x : string) (xs : list string) :
  NoDup xs ->
  list_remove x xs = filter (fun y => negb (String.eqb y x)) xs.
Proof.
  induction xs as [|y ys IH]; simpl; intros Hnd; auto.
  inversion Hnd as [|? ? Hnotin Hnd']; subst.
  destruct (String.eqb y x) eqn:E; simpl.
  - apply String.eqb_eq in E. subst y.
    clear IH Hnd Hnd'. induction ys as [|z zs IH]; simpl; auto.
    destruct (String.eqb z x) eqn:Ez.
    + apply String.eqb_eq in Ez. subst. exfalso. apply Hnotin. now left.
    + simpl. f_equal. apply IH. intros H. apply Hnotin. now right.
  - now rewrite IH.
Qed.

(** X11: the field list takes precedence: once [fields] is given (a list,
    even an empty one, or ["__all__"]) the exclusion list is not looked at.
    Without [fields], a non-empty exclusion list selects exactly the
    concrete names that are not in it. *)
Theorem exclusion_list_semantics :
  forall (model : Model) (exclude : option (list string)),
    select_names model FieldsAll exclude = select_names model FieldsAll None
    /\ (forall names,
           select_names model (FieldsList names) exclude
           = select_names model (FieldsList names) None)
    /\ select_names model (FieldsList []) exclude = []
    /\ (forall ex n,
           ex <> [] ->
           In n (select_names model FieldsNone (Some ex))
           <-> In n (map Models.name (meta_fields model)) /\ ~ In n ex).
Proof.
  intros model exclude. split; [reflexivity|]. split; [reflexivity|].
  split.
  - unfold select_names. induction (meta_fields model); simpl; auto.
  - intros ex n Hne. unfold select_names.
    destruct ex as [|e ex]; [congruence|].
    change (Nat.ltb 0 (List.length (e :: ex))) with true. cbv iota.
    rewrite (map_filter_comm Models.name (fun n => negb (mem n (e :: ex)))).
    rewrite filter_In, negb_true_iff. split.
    + intros [Hin Hmem]. split; auto. intros H. apply mem_In in H. congruence.
    + intros [Hin Hnot]. split; auto.
      destruct (mem n (e :: ex)) eqn:E; auto.
      apply mem_In in E. contradiction.
Qed.

Lemma exclusion_list_semantics_witness :
  In "color" (select_names Fixtures.Fruit FieldsNone (Some ["name"]))
  /\ ~ In "name" (select_names Fixtures.Fruit FieldsNone (Some ["name"])).
Proof.
  pose proof (proj2 (proj2 (proj2
                (exclusion_list_semantics Fixtures.Fruit None)))) as H.
  split.
  - apply (H ["name"] "color"); [discriminate|].
    split; [simpl; auto|].
    intros [E|[]]. discriminate.
  - intros Hin. apply (H ["name"] "name") in Hin; [|discriminate].
    destruct Hin as [_ Hnot]. apply Hnot. now left.
Defined.

(** X12: on a model whose concrete fields have distinct names, the names
    the engine keeps are always the concrete names that pass some test, in
    the order of the model, and no name is kept twice. *)
Theorem model_field_names_in_model_order :
  forall (settings : Settings) (model : Model) (fields : fields_arg)
         (exclude : option (list string)),
    NoDup (map Models.name (meta_fields model)) ->
    NoDup (model_field_names settings model fields exclude)
    /\ exists keep,
        model_field_names settings model fields exclude
        = filter keep (map Models.name (meta_fields model)).
Proof.
  intros settings model fields exclude Hnd.
  assert (Hsel : exists keep,
             select_names model fields exclude
             = filter keep (map Models.name (meta_fields model))).
  { unfold select_names. destruct fields as [| |names].
    - destruct exclude as [ex|].
      + destruct (Nat.ltb 0 (List.length ex)).
        * exists (fun n => negb (mem n ex)).
          apply (map_filter_comm Models.name (fun n => negb (mem n ex))).
        * exists (fun _ => false). now rewrite filter_false.
      + exists (fun _ => false). now rewrite filter_false.
    - exists (fun _ => true). now rewrite filter_true.
    - exists (fun n => mem n names).
      apply (map_filter_comm Models.name (fun n => mem n names)). }
  destruct Hsel as [keep Hsel].
  pose proof (select_names_NoDup model fields exclude Hnd) as Hnd'.
  unfold model_field_names.
  destruct (MAP_AUTO_ID_AS_GLOBAL_ID settings
            && mem "id" (select_names model fields exclude)).
  - rewrite (list_remove_filter "id" Hnd'). split.
    + now apply NoDup_filter.
    + rewrite Hsel, filter_filter. eauto.
  - split; eauto.
Qed.

Lemma model_field_names_in_model_order_witness :
  NoDup (model_field_names Fixtures.global_ids Fixtures.Fruit FieldsAll None).
Proof.
  apply (proj1 (model_field_names_in_model_order Fixtures.global_ids
                  Fixtures.Fruit FieldsAll None
                  ltac:(simpl; repeat constructor; simpl;
                        intuition discriminate))).
Defined.

(** ** More on the before phase *)

Lemma keys_dict_set {V : Type} (d : dict V) (k : string) (v : V) :
  keys (dict_set d k v)
  = if dict_contains d k then keys d else (keys d ++ [k])%list.
Proof.
  unfold dict_contains.
  induction d as [|[k' v'] rest IH]; simpl; auto.
  destruct (String.eqb k' k) eqn:E; simpl; auto.
  rewrite IH. destruct (dict_get rest k); reflexivity.
Qed.

Lemma dict_contains_keys {V : Type} (d : dict V) (k : string) :
  dict_contains d k = true <-> In k (keys d).
Proof.
  unfold dict_contains.
  induction d as [|[k' v'] rest IH]; simpl.
  - split; [discriminate|tauto].
  - destruct (String.eqb k' k) eqn:E.
    + apply String.eqb_eq in E. split; auto.
    + apply String.eqb_neq in E. rewrite IH. split; [auto|].
      intros [H|H]; [contradiction|assumption].
Qed.

Lemma dict_set_NoDup {V : Type} (d : dict V) (k : string) (v : V) :
  NoDup (keys d) -> NoDup (keys (dict_set d k v)).
Proof.
  intros Hnd. rewrite keys_dict_set.
  destruct (dict_contains d k) eqn:E; auto.
  apply NoDup_app; auto.
  - constructor; [intros []|constructor].
  - intros x Hin [<-|[]]. apply dict_contains_keys in Hin. congruence.
Qed.

Lemma dict_set_same_value {V : Type} (d : dict V) (k : string) (v : V) :
  dict_get d k = Some v -> dict_set d k v = d.
Proof.
  induction d as [|[k' v'] rest IH]; simpl; [discriminate|].
  destruct (String.eqb k' k) eqn:E.
  - intros H. now inversion H.
  - intros H. now rewrite IH.
Qed.

Lemma dict_contains_set {V : Type} (d : dict V) (k k' : string) (v : V) :
  dict_contains d k' = true -> dict_contains (dict_set d k v) k' = true.
Proof.
  rewrite !dict_contains_keys, keys_dict_set.
  destruct (dict_contains d k); auto.
  intros H. apply in_or_app. now left.
Qed.

Lemma inject_auto_NoDup (names attributes : list string)
    (d : dict annotation) :
  NoDup (keys d) -> NoDup (keys (inject_auto names attributes d)).
Proof.
  revert d. induction names as [|x names IH]; simpl; intros d Hnd; auto.
  apply IH.
  destruct (dict_contains d x || mem x attributes); auto.
  now apply dict_set_NoDup.
Qed.

Lemma inject_auto_fixed (names attributes : list string)
    (d : dict annotation) :
  (forall n, In n names ->
             dict_contains d n || mem n attributes = true) ->
  inject_auto names attributes d = d.
Proof.
  induction names as [|x names IH]; simpl; intros H; auto.
  rewrite (H x) by now left. apply IH. intros n Hin. apply H. now right.
Qed.

Lemma inject_auto_covers (names attributes : list string)
    (d : dict annotation) (n : string) :
  In n names ->
  dict_contains (inject_auto names attributes d) n || mem n attributes = true.
Proof.
  intros Hin.
  destruct (mem n attributes) eqn:Hattr; [apply orb_true_r|].
  rewrite orb_false_r. unfold dict_contains.
  destruct (dict_get d n) as [a|] eqn:Hget.
  - now rewrite (inject_auto_keeps names attributes d n Hget).
  - now rewrite (inject_auto_adds names attributes d n Hin Hget Hattr).
Qed.

(** X13: the before phase never reorders or drops what the class body
    declares: the placeholders it adds come after the declared annotations,
    and each of them stands for a selected name that the class neither
    annotates nor has as an attribute. *)
Theorem placeholders_follow_declared :
  forall (names attributes : list string) (declared : dict annotation),
    exists added,
      inject_auto names attributes declared
      = (declared ++ map (fun n => (n, AType TAuto)) added)%list
      /\ forall n,
          In n added ->
          In n names
          /\ dict_get declared n = None
          /\ mem n attributes = false.
Proof.
  intros names attributes d. revert d.
  induction names as [|x names IH]; simpl; intros d.
  - exists []. split; [now rewrite app_nil_r|intros n []].
  - destruct (dict_contains d x || mem x attributes) eqn:E.
    + destruct (IH d) as [added [Heq Hadded]].
      exists added. split; auto.
      intros n Hin. destruct (Hadded n Hin) as [H1 H2]. auto.
    + apply orb_false_iff in E. destruct E as [Hc Hm].
      apply dict_contains_false in Hc.
      rewrite (dict_set_absent d x (AType TAuto) Hc).
      destruct (IH (d ++ [(x, AType TAuto)])%list) as [added [Heq Hadded]].
      exists (x :: added). split.
      * rewrite Heq. simpl. now rewrite <- app_assoc.
      * intros n [<-|Hin]; [auto|].
        destruct (Hadded n Hin) as [H1 [H2 H3]].
        repeat split; auto.
        rewrite dict_get_app in H2.
        destruct (dict_get d n); [discriminate|reflexivity].
Qed.

Lemma placeholders_follow_declared_witness :
  inject_auto ["id"; "name"; "color"; "maker"] ["color"]
    [("name", AType (TClass "str"))]
  = [("name", AType (TClass "str")); ("id", AType TAuto);
     ("maker", AType TAuto)].
Proof.
  destruct (placeholders_follow_declared ["id"; "name"; "color"; "maker"]
              ["color"] [("name", AType (TClass "str"))])
    as [added [Heq _]].
  reflexivity.
Defined.

Lemma dict_update_NoDup {V : Type} (other d : dict V) :
  NoDup (keys d) -> NoDup (keys (dict_update d other)).
Proof.
  unfold dict_update. revert d.
  induction other as [|[k v] other IH]; simpl; intros d Hnd; auto.
  apply IH. now apply dict_set_NoDup.
Qed.

Lemma dict_update_contains {V : Type} (other d : dict V) (k : string) :
  dict_contains d k = true -> dict_contains (dict_update d other) k = true.
Proof.
  unfold dict_update. revert d.
  induction other as [|[k0 v0] other IH]; simpl; intros d H; auto.
  apply IH. now apply dict_contains_set.
Qed.

Lemma dict_update_boilerplate_idempotent (d : dict annotation) :
  dict_update (dict_update d filter_boilerplate) filter_boilerplate
  = dict_update d filter_boilerplate.
Proof.
  set (d' := dict_update d filter_boilerplate).
  assert (H : forall k a, In (k, a) filter_boilerplate ->
                          dict_get d' k = Some a)
    by (intros k a; apply dict_update_boilerplate_get).
  unfold dict_update at 1. unfold filter_boilerplate at 1. simpl.
  rewrite (dict_set_same_value d' "AND")
    by (apply H; unfold filter_boilerplate; simpl; auto).
  rewrite (dict_set_same_value d' "OR")
    by (apply H; unfold filter_boilerplate; simpl; auto).
  rewrite (dict_set_same_value d' "NOT")
    by (apply H; unfold filter_boilerplate; simpl; auto).
  rewrite (dict_set_same_value d' "DISTINCT")
    by (apply H; unfold filter_boilerplate; simpl; auto 6).
  reflexivity.
Qed.

(** X14: the before phase keeps the annotations a dictionary: when no name
    is declared twice in the class body, none is bound twice afterwards,
    with or without the filter boilerplate. *)
Theorem before_phase_keeps_keys_distinct :
  forall (to_camel_case : string -> string) (self : DjangoTypeExtension)
         (cls : PyClass) (declared : dict annotation),
    cls_annotations cls = Some declared ->
    NoDup (keys declared) ->
    exists after,
      cls_annotations (snd (on_wrap_dataclass to_camel_case self cls))
      = Some after
      /\ NoDup (keys after)
      /\ forall k, In k (keys declared) -> In k (keys after).
Proof.
  intros to_camel_case self cls declared Hdecl Hnd.
  assert (Hafter :
            cls_annotations (snd (on_wrap_dataclass to_camel_case self cls))
            = Some (if truthy (is_filter self)
                    then dict_update
                           (inject_auto (_model_field_names self)
                              (cls_attributes cls) declared)
                           filter_boilerplate
                    else inject_auto (_model_field_names self)
                           (cls_attributes cls) declared)).
  { unfold on_wrap_dataclass. simpl. rewrite Hdecl.
    destruct (truthy (is_filter self)); reflexivity. }
  rewrite Hafter. eexists. split; [reflexivity|].
  assert (Hinj : forall k, In k (keys declared) ->
                 dict_contains
                   (inject_auto (_model_field_names self)
                      (cls_attributes cls) declared) k = true).
  { intros k Hin. apply dict_contains_keys in Hin.
    unfold dict_contains in *.
    destruct (dict_get declared k) as [a|] eqn:Hget; [|discriminate].
    now rewrite (inject_auto_keeps _ _ _ _ Hget). }
  destruct (truthy (is_filter self)); split.
  - apply dict_update_NoDup. now apply inject_auto_NoDup.
  - intros k Hin. apply dict_contains_keys.
    apply dict_update_contains. now apply Hinj.
  - now apply inject_auto_NoDup.
  - intros k Hin. apply dict_contains_keys. now apply Hinj.
Qed.

Lemma before_phase_keeps_keys_distinct_witness :
  exists after,
    cls_annotations
      (snd (on_wrap_dataclass Fixtures.identity
              (Fixtures.filter_extension Fixtures.Fruit) Fixtures.AndFilter))
    = Some after
    /\ NoDup (keys after).
Proof.
  destruct (before_phase_keeps_keys_distinct Fixtures.identity
              (Fixtures.filter_extension Fixtures.Fruit) Fixtures.AndFilter
              eq_refl
              ltac:(simpl; repeat constructor; simpl; intuition discriminate))
    as [after [Heq [Hnd _]]].
  exists after. split; assumption.
Defined.

(** X15: the before phase is idempotent: run again on the engine and the
    class it has left, it changes neither. *)
Theorem before_phase_idempotent :
  forall (to_camel_case : string -> string) (self : DjangoTypeExtension)
         (cls : PyClass),
    let once := on_wrap_dataclass to_camel_case self cls in
    on_wrap_dataclass to_camel_case (fst once) (snd once) = once.
Proof.
  intros to_camel_case self cls once.
  unfold once, on_wrap_dataclass.
  cbn [fst snd _model_field_names _name _origin _use_fields_description
       extension_attrs cls_name cls_annotations cls_attributes].
  set (declared := match cls_annotations cls with
                   | Some d => d
                   | None => []
                   end).
  set (injected := inject_auto (_model_field_names self)
                     (cls_attributes cls) declared).
  assert (Hname :
            match
              match _name self with
              | Some n =>
                  if String.eqb n "" then Some (to_camel_case (cls_name cls))
                  else Some n
              | None => Some (to_camel_case (cls_name cls))
              end
            with
            | Some n =>
                if String.eqb n "" then Some (to_camel_case (cls_name cls))
                else Some n
            | None => Some (to_camel_case (cls_name cls))
            end
            = match _name self with
              | Some n =>
                  if String.eqb n "" then Some (to_camel_case (cls_name cls))
                  else Some n
              | None => Some (to_camel_case (cls_name cls))
              end).
  { destruct (_name self) as [n|].
    - destruct (String.eqb n "") eqn:E; [|now rewrite E].
      destruct (String.eqb (to_camel_case (cls_name cls)) "") eqn:E';
        auto.
    - destruct (String.eqb (to_camel_case (cls_name cls)) "") eqn:E'; auto. }
  rewrite Hname.
  assert (Hfixed : forall d,
             (forall k, dict_contains injected k = true ->
                        dict_contains d k = true) ->
             inject_auto (_model_field_names self) (cls_attributes cls) d = d).
  { intros d Hd. apply inject_auto_fixed. intros n Hin.
    pose proof (inject_auto_covers (_model_field_names self)
                  (cls_attributes cls) declared n Hin) as Hc.
    fold injected in Hc. apply orb_true_iff in Hc.
    apply orb_true_iff. destruct Hc as [Hc|Hc]; auto. }
  destruct (truthy (is_filter self)).
  - rewrite Hfixed by (intros k; apply dict_update_contains).
    now rewrite dict_update_boilerplate_idempotent.
  - now rewrite Hfixed.
Qed.

(** ** The after phase: identity resolvers of a node type *)

Lemma install_resolver_ok (cls cls' : DataClass) (attr func : string) :
  install_resolver cls attr func = Ok cls' ->
  String.eqb func (Node_default attr) = false ->
  dataclass_name cls' = dataclass_name cls
  /\ subclasses_Node cls' = subclasses_Node cls
  /\ (forall other, other <> attr ->
        dict_get (class_methods cls') other
        = dict_get (class_methods cls) other)
  /\ exists f,
      dict_get (class_methods cls') attr
      = Some (BoundMethod f (dataclass_name cls))
      /\ String.eqb f (Node_default attr) = false
      /\ installed cls attr func f.
Proof.
  unfold install_resolver, installed.
  destruct (dict_get (class_methods cls) attr) as [[g s|v]|] eqn:Hget;
    simpl bind; [| discriminate |].
  - destruct (String.eqb g (Node_default attr)) eqn:Hdefault.
    + simpl. rewrite dict_get_set_same, String.eqb_refl. simpl.
      intros H Hfunc. inversion H; subst; simpl.
      repeat split; auto.
      * intros other Hne. now apply dict_get_set_other.
      * exists func. rewrite dict_get_set_same. auto.
    + rewrite Hget.
      destruct (String.eqb s (dataclass_name cls)) eqn:Hself; simpl;
        intros H Hfunc; inversion H; subst; simpl.
      * apply String.eqb_eq in Hself. subst s.
        repeat split; auto. exists g. auto.
      * repeat split; auto.
        -- intros other Hne. now apply dict_get_set_other.
        -- exists g. rewrite dict_get_set_same. auto.
  - simpl. rewrite dict_get_set_same, String.eqb_refl. simpl.
    intros H Hfunc. inversion H; subst; simpl.
    repeat split; auto.
    + intros other Hne. now apply dict_get_set_other.
    + exists func. rewrite dict_get_set_same. auto.
Qed.

Lemma install_resolver_raises (cls : DataClass) (attr func : string)
    (e : error) :
  install_resolver cls attr func = Raise e
  <-> e = AttributeError "__func__"
      /\ exists v, dict_get (class_methods cls) attr = Some (PlainAttribute v).
Proof.
  unfold install_resolver.
  destruct (dict_get (class_methods cls) attr) as [[g s|v]|] eqn:Hget;
    simpl bind.
  - split; [|intros [_ [v H]]; discriminate].
    destruct (String.eqb g (Node_default attr)).
    + simpl. rewrite dict_get_set_same, String.eqb_refl. discriminate.
    + rewrite Hget. destruct (negb (String.eqb s (dataclass_name cls)));
        discriminate.
  - split.
    + intros H. inversion H. split; eauto.
    + intros [-> _]. reflexivity.
  - split; [|intros [_ [v H]]; discriminate].
    simpl. rewrite dict_get_set_same, String.eqb_refl. discriminate.
Qed.

Lemma install_resolver_fixed (cls : DataClass) (attr func f : string) :
  dict_get (class_methods cls) attr
  = Some (BoundMethod f (dataclass_name cls)) ->
  String.eqb f (Node_default attr) = false ->
  install_resolver cls attr func = Ok cls.
Proof.
  intros Hget Hf. unfold install_resolver. rewrite Hget. simpl.
  now rewrite Hf, Hget, String.eqb_refl.
Qed.

Lemma install_resolvers_ok (todo : list (string * string)) :
  NoDup (map fst todo) ->
  (forall attr func, In (attr, func) todo ->
                     String.eqb func (Node_default attr) = false) ->
  forall cls cls',
    install_resolvers cls todo = Ok cls' ->
    dataclass_name cls' = dataclass_name cls
    /\ subclasses_Node cls' = subclasses_Node cls
    /\ (forall other, ~ In other (map fst todo) ->
          dict_get (class_methods cls') other
          = dict_get (class_methods cls) other)
    /\ (forall attr func, In (attr, func) todo ->
          exists f,
            dict_get (class_methods cls') attr
            = Some (BoundMethod f (dataclass_name cls))
            /\ String.eqb f (Node_default attr) = false
            /\ installed cls attr func f).
Proof.
  induction todo as [|[a fn] todo IH]; simpl; intros Hnd Hfunc cls cls' H.
  - inversion H; subst. repeat split; auto. intros attr func [].
  - inversion Hnd as [|? ? Hnotin Hnd']; subst.
    destruct (install_resolver cls a fn) as [c1|e] eqn:Hone;
      [|discriminate].
    simpl in H.
    destruct (install_resolver_ok cls a fn Hone (Hfunc a fn (or_introl eq_refl)))
      as [Hn1 [Hs1 [Ho1 [f1 [Hg1 [Hd1 Hi1]]]]]].
    destruct (IH Hnd' (fun attr func Hin => Hfunc attr func (or_intror Hin))
                c1 cls' H)
      as [Hn [Hs [Ho Hall]]].
    split; [congruence|]. split; [congruence|]. split.
    + intros other Hnot. rewrite Ho by tauto. apply Ho1.
      intros ->. apply Hnot. now left.
    + intros attr func [Heq|Hin].
      * inversion Heq; subst. exists f1.
        rewrite (Ho attr Hnotin). auto.
      * destruct (Hall attr func Hin) as [f [Hg [Hd Hi]]].
        exists f. rewrite <- Hn1. split; [exact Hg|]. split; [exact Hd|].
        assert (Hne : attr <> a).
        { intros ->. apply Hnotin.
          change a with (fst (a, func)). now apply in_map. }
        unfold installed in *. now rewrite <- (Ho1 attr Hne).
Qed.

Lemma install_resolvers_fixed (todo : list (string * string))
    (cls : DataClass) :
  (forall attr func, In (attr, func) todo ->
     exists f,
       dict_get (class_methods cls) attr
       = Some (BoundMethod f (dataclass_name cls))
       /\ String.eqb f (Node_default attr) = false) ->
  install_resolvers cls todo = Ok cls.
Proof.
  induction todo as [|[a fn] todo IH]; simpl; intros H; auto.
  destruct (H a fn (or_introl eq_refl)) as [f [Hg Hd]].
  rewrite (@install_resolver_fixed cls a fn f Hg Hd). simpl.
  apply IH. intros attr func Hin. apply (H attr func). now right.
Qed.

Lemma install_resolvers_raises (todo : list (string * string)) :
  NoDup (map fst todo) ->
  (forall attr func, In (attr, func) todo ->
                     String.eqb func (Node_default attr) = false) ->
  forall cls e,
    install_resolvers cls todo = Raise e
    <-> e = AttributeError "__func__"
        /\ exists attr v,
            In attr (map fst todo)
            /\ dict_get (class_methods cls) attr = Some (PlainAttribute v).
Proof.
  induction todo as [|[a fn] todo IH]; simpl; intros Hnd Hfunc cls e.
  - split; [discriminate|intros [_ [attr [v [[] _]]]]].
  - inversion Hnd as [|? ? Hnotin Hnd']; subst.
    assert (Hfunc' : forall attr func, In (attr, func) todo ->
                       String.eqb func (Node_default attr) = false)
      by (intros attr func Hin; apply Hfunc; now right).
    destruct (install_resolver cls a fn) as [c1|e1] eqn:Hone; simpl.
    + destruct (install_resolver_ok cls a fn Hone
                  (Hfunc a fn (or_introl eq_refl)))
        as [_ [_ [Ho1 [f1 [_ [_ Hi1]]]]]].
      rewrite (IH Hnd' Hfunc' c1 e). split.
      * intros [-> [attr [v [Hin Hget]]]]. split; auto.
        exists attr, v. split; [now right|].
        rewrite <- Ho1; auto. intros ->. contradiction.
      * intros [-> [attr [v [[<-|Hin] Hget]]]].
        -- unfold installed in Hi1. rewrite Hget in Hi1. contradiction.
        -- split; auto. exists attr, v. split; auto.
           rewrite Ho1; auto. intros ->. contradiction.
    + apply install_resolver_raises in Hone. destruct Hone as [-> [v Hget]].
      split.
      * intros H. inversion H. split; auto. exists a, v. auto.
      * intros [-> _]. reflexivity.
Qed.

Lemma node_resolvers_facts :
  NoDup (map fst node_resolvers)
  /\ forall attr func, In (attr, func) node_resolvers ->
                       String.eqb func (Node_default attr) = false.
Proof.
  split.
  - simpl. repeat constructor; simpl; intuition discriminate.
  - intros attr func H. simpl in H.
    destruct H as [H|[H|[H|[H|[]]]]]; inversion H; reflexivity.
Qed.

(** X16: when the after phase goes through on a node type, each of the four
    identity resolvers is a method bound to the class itself. It is the
    model's resolver where the class had none or only the default of
    [relay.Node]; a resolver the class (or a parent) had overridden is kept,
    re-bound to the class. Nothing else on the class changes. *)
Theorem node_resolvers_installed :
  forall cls cls' : DataClass,
    subclasses_Node cls = true ->
    on_wrap_dataclass_after cls = Ok cls' ->
    dataclass_name cls' = dataclass_name cls
    /\ (forall other,
           ~ In other (map fst node_resolvers) ->
           dict_get (class_methods cls') other
           = dict_get (class_methods cls) other)
    /\ (forall attr func,
           In (attr, func) node_resolvers ->
           exists f,
             dict_get (class_methods cls') attr
             = Some (BoundMethod f (dataclass_name cls))
             /\ match dict_get (class_methods cls) attr with
                | None => f = func
                | Some (BoundMethod g _) =>
                    if String.eqb g (Node_default attr) then f = func
                    else f = g
                | Some (PlainAttribute _) => False
                end).
Proof.
  intros cls cls' Hnode H. unfold on_wrap_dataclass_after in H.
  rewrite Hnode in H. simpl negb in H. cbv iota in H.
  destruct node_resolvers_facts as [Hnd Hfunc].
  destruct (@install_resolvers_ok node_resolvers Hnd Hfunc cls cls' H)
    as [Hn [_ [Ho Hall]]].
  split; [exact Hn|]. split; [exact Ho|].
  intros attr func Hin.
  destruct (Hall attr func Hin) as [f [Hg [_ Hi]]].
  exists f. split; [exact Hg|exact Hi].
Qed.

Lemma node_resolvers_installed_witness :
  on_wrap_dataclass_after Fixtures.FruitNodeClass
  = Ok {| dataclass_name := "FruitNode";
          subclasses_Node := true;
          class_methods :=
            [ ("resolve_id", BoundMethod "FruitNode.resolve_id" "FruitNode");
              ("resolve_id_attr",
               BoundMethod "resolve_model_id_attr" "FruitNode");
              ("resolve_node", BoundMethod "resolve_model_node" "FruitNode");
              ("resolve_nodes",
               BoundMethod "resolve_model_nodes" "FruitNode") ] |}
  /\ exists f,
      dict_get
        (class_methods
           {| dataclass_name := "FruitNode";
              subclasses_Node := true;
              class_methods :=
                [ ("resolve_id",
                   BoundMethod "FruitNode.resolve_id" "FruitNode");
                  ("resolve_id_attr",
                   BoundMethod "resolve_model_id_attr" "FruitNode");
                  ("resolve_node",
                   BoundMethod "resolve_model_node" "FruitNode");
                  ("resolve_nodes",
                   BoundMethod "resolve_model_nodes" "FruitNode") ] |})
        "resolve_node"
      = Some (BoundMethod f "FruitNode").
Proof.
  split; [reflexivity|].
  destruct (proj2 (proj2
              (node_resolvers_installed Fixtures.FruitNodeClass
                 (cls' := {| dataclass_name := "FruitNode";
                             subclasses_Node := true;
                             class_methods :=
                               [ ("resolve_id",
                                  BoundMethod "FruitNode.resolve_id"
                                    "FruitNode");
                                 ("resolve_id_attr",
                                  BoundMethod "resolve_model_id_attr"
                                    "FruitNode");
                                 ("resolve_node",
                                  BoundMethod "resolve_model_node"
                                    "FruitNode");
                                 ("resolve_nodes",
                                  BoundMethod "resolve_model_nodes"
                                    "FruitNode") ] |})
                 eq_refl eq_refl))
              "resolve_node" "resolve_model_node")
    as [f [Hf _]].
  - simpl. auto.
  - exists f. exact Hf.
Defined.

(** X17: the after phase leaves a class that is no node type alone; on a
    node type it fails exactly when one of the four resolver names is bound
    to something that is no method (it has no [__func__]), with an
    [AttributeError]; and where it goes through, running it again changes
    nothing. *)
Theorem after_phase_errors_and_idempotence :
  forall cls : DataClass,
    (subclasses_Node cls = false -> on_wrap_dataclass_after cls = Ok cls)
    /\ (forall e,
           on_wrap_dataclass_after cls = Raise e
           <-> subclasses_Node cls = true
               /\ e = AttributeError "__func__"
               /\ exists attr v,
                   In attr ["resolve_id"; "resolve_id_attr"; "resolve_node";
                            "resolve_nodes"]
                   /\ dict_get (class_methods cls) attr
                      = Some (PlainAttribute v))
    /\ (forall cls',
           on_wrap_dataclass_after cls = Ok cls' ->
           on_wrap_dataclass_after cls' = Ok cls').
Proof.
  intros cls. destruct node_resolvers_facts as [Hnd Hfunc].
  unfold on_wrap_dataclass_after.
  destruct (subclasses_Node cls) eqn:Hnode; simpl negb; cbv iota.
  - split; [discriminate|]. split.
    + intros e.
      rewrite (@install_resolvers_raises node_resolvers Hnd Hfunc cls e).
      simpl map. tauto.
    + intros cls' H.
      destruct (@install_resolvers_ok node_resolvers Hnd Hfunc cls cls' H)
        as [Hn [Hs [_ Hall]]].
      rewrite Hs, Hnode. simpl negb. cbv iota.
      apply install_resolvers_fixed. intros attr func Hin.
      destruct (Hall attr func Hin) as [f [Hg [Hd _]]].
      exists f. rewrite Hn. auto.
  - split; [reflexivity|]. split.
    + intros e. split; [discriminate|]. intros [H _]. discriminate.
    + intros cls' H. inversion H; subst. now rewrite Hnode.
Qed.

Lemma after_phase_errors_and_idempotence_witness :
  on_wrap_dataclass_after Fixtures.StaticNodeClass
  = Raise (AttributeError "__func__").
Proof.
  apply (proj1 (proj2 (after_phase_errors_and_idempotence
                         Fixtures.StaticNodeClass))).
  split; [reflexivity|]. split; [reflexivity|].
  exists "resolve_id", "resolve_id". split; [simpl; auto|reflexivity].
Defined.

(** ** The per-field hook *)

Section HookFacts.

Variable cleandoc : string -> string.
Variable contenttypes_available : bool.
Variable get_model_field : Model -> string -> option ModelField.
Variable resolve_model_field_type : ModelField -> definition_attrs -> ty.
Variable resolve_model_field_name :
  ModelField -> bool -> bool -> bool -> string.

(** X18: the hook either hands the field back untouched (a private field,
    or a schema field that has a resolver and is not a managed one) or it
    hands back a managed field with the same python name, resolver and
    origin. The annotation of that field is the one the field came with when
    its type is not the placeholder, and the one computed from the model
    when it is. *)
Theorem on_field_result_shape :
  forall (self : DjangoTypeExtension) (field field' : Field),
    on_field cleandoc contenttypes_available get_model_field
      resolve_model_field_type resolve_model_field_name self field
    = Ok field' ->
    (field' = field
     /\ (is_private (type_ field) = true
         \/ (kind field = StrawberryField /\ base_resolver field <> None)))
    \/ (kind field' = StrawberryDjangoField
        /\ python_name_of field' = python_name_of field
        /\ base_resolver field' = base_resolver field
        /\ origin field' = origin field
        /\ (is_auto (type_ field) = false ->
            type_annotation field' = type_annotation_of field)
        /\ (is_auto (type_ field) = true ->
            exists attrs,
              _get_model_attrs cleandoc contenttypes_available
                get_model_field resolve_model_field_type
                resolve_model_field_name self field
              = Ok attrs
              /\ type_annotation field'
                 = Some (attrs_type_annotation attrs))).
Proof.
  intros self field field'. unfold on_field.
  destruct (is_private (type_ field)) eqn:Hp.
  { intros H. inversion H. left. auto. }
  destruct (is_auto (type_ field)) eqn:Hauto;
    [destruct (_get_model_attrs cleandoc contenttypes_available
                 get_model_field resolve_model_field_type
                 resolve_model_field_name self field) as [attrs|e];
     [|discriminate]|];
    simpl bind;
    destruct (kind field) eqn:Hk;
    destruct (base_resolver field) eqn:Hb;
    unfold input_default;
    match goal with
    | |- context [if ?c then _ else _] => destruct c
    | _ => idtac
    end;
    intros H; inversion H; subst; clear H; simpl;
    try (left; split; [reflexivity|right; split; [reflexivity|discriminate]]);
    right; unfold python_name_of, type_annotation_of; simpl;
    rewrite ?Hk, ?Hb;
    (split; [reflexivity|]); (split; [reflexivity|]);
    (split; [reflexivity|]); (split; [reflexivity|]);
    (split; [intros Hno; try discriminate; reflexivity|]);
    intros Hyes; try discriminate;
    eexists; split; reflexivity.
Qed.

(** X19: a field the hook manages for an input type never keeps a missing
    default: its default and default value are not both [MISSING]
    afterwards, and they are [UNSET] when nothing was given. For a type that
    is no input, and for a default that was given, the default is as it
    was. *)
Theorem input_fields_get_unset_default :
  forall (self : DjangoTypeExtension) (field field' : Field),
    on_field cleandoc contenttypes_available get_model_field
      resolve_model_field_type resolve_model_field_name self field
    = Ok field' ->
    is_private (type_ field) = false ->
    (kind field = StrawberryField -> base_resolver field = None) ->
    (is_input self = true ->
     is_MISSING (default field') && is_MISSING (default_value field') = false)
    /\ (is_input self = true ->
        default field = MISSING ->
        default_factory field = MISSING ->
        default_value field = MISSING ->
        default field' = UNSET /\ default_value field' = UNSET)
    /\ (is_input self = false -> default field' = default field)
    /\ (default field <> MISSING -> default field' = default field).
Proof.
  intros self field field'. unfold on_field.
  intros H Hp Hres. rewrite Hp in H.
  destruct (is_auto (type_ field));
    [destruct (_get_model_attrs cleandoc contenttypes_available
                 get_model_field resolve_model_field_type
                 resolve_model_field_name self field) as [attrs|e];
     [|discriminate]|];
    simpl bind in H;
    destruct (kind field) eqn:Hk;
    destruct (base_resolver field) eqn:Hb;
    try (specialize (Hres eq_refl); discriminate);
    unfold input_default in H;
    destruct (is_input self) eqn:Hin; simpl andb in H;
    try match type of H with
        | context [if ?c then _ else _] => destruct c eqn:Hc
        end;
    inversion H; subst; clear H; simpl;
    repeat split; intros; try congruence; auto;
    try (destruct attrs; simpl in *; congruence);
    try (destruct (default field) eqn:Hd; simpl in *; congruence);
    try (destruct (default field); destruct (default_factory field);
         simpl in *; congruence);
    try match goal with
        | Hc : is_MISSING (default ?f) && is_MISSING (default_value ?f)
               = false,
          Hd : default ?f = MISSING,
          Hv : default_value ?f = MISSING |- _ =>
            rewrite Hd, Hv in Hc; discriminate
        end.
Qed.

End HookFacts.

Lemma on_field_result_shape_witness :
  exists field',
    on_field Fixtures.identity true Fixtures.get_field Fixtures.field_type
      Fixtures.field_name (Fixtures.type_extension Fixtures.Fruit)
      (Fixtures.declared "name" (AType TAuto))
    = Ok field'
    /\ kind field' = StrawberryDjangoField
    /\ python_name_of field' = "name".
Proof.
  eexists. split; [reflexivity|].
  destruct (on_field_result_shape Fixtures.identity true Fixtures.get_field
              Fixtures.field_type Fixtures.field_name
              (Fixtures.type_extension Fixtures.Fruit)
              (Fixtures.declared "name" (AType TAuto)) eq_refl)
    as [[_ [Hp|[Hk _]]]|[Hk [Hn _]]].
  - discriminate.
  - discriminate.
  - split; [exact Hk|exact Hn].
Defined.

Lemma input_fields_get_unset_default_witness :
  exists field',
    on_field Fixtures.identity true Fixtures.get_field Fixtures.field_type
      Fixtures.field_name
      (Fixtures.input_extension Fixtures.InputFieldsModel false)
      (Fixtures.declared "mandatory" (AType TAuto))
    = Ok field'
    /\ default field' = UNSET
    /\ default_value field' = UNSET.
Proof.
  eexists. split; [reflexivity|].
  apply (proj1 (proj2
           (input_fields_get_unset_default Fixtures.identity true
              Fixtures.get_field Fixtures.field_type Fixtures.field_name
              (Fixtures.input_extension Fixtures.InputFieldsModel false)
              (Fixtures.declared "mandatory" (AType TAuto))
              eq_refl eq_refl ltac:(discriminate))));
    reflexivity.
Defined.

Section AttrsFacts.

Variable cleandoc : string -> string.
Variable contenttypes_available : bool.
Variable get_model_field : Model -> string -> option ModelField.
Variable resolve_model_field_type : ModelField -> definition_attrs -> ty.
Variable resolve_model_field_name :
  ModelField -> bool -> bool -> bool -> string.

(** X20: a description given on the field is never replaced by one derived
    from the model, and nothing is derived from the model unless
    descriptions from help texts are switched on. *)
Theorem explicit_description_wins :
  forall (self : DjangoTypeExtension) (field : Field) (attrs : ModelAttrs),
    _get_model_attrs cleandoc contenttypes_available get_model_field
      resolve_model_field_type resolve_model_field_name self field
    = Ok attrs ->
    (forall text,
        description field = Some text ->
        attrs_description attrs = Some text)
    /\ (description field = None ->
        _use_fields_description self = false ->
        attrs_description attrs = None).
Proof.
  intros self field attrs. unfold _get_model_attrs.
  destruct (get_model_field (model self) (model_name_of field))
    as [model_attr|].
  - destruct (type_source (python_name_of field) model_attr) as [target|];
      [|discriminate].
    simpl. intros H. inversion H; subst; clear H. simpl.
    unfold field_description. split.
    + intros text ->. reflexivity.
    + intros -> ->. reflexivity.
  - destruct (dict_get (class_attrs (model self)) (model_name_of field))
      as [[ann descr|[ret|] doc|[ret|] doc|[|]]|];
      try discriminate;
      intros H; inversion H; subst; clear H; simpl;
      unfold property_description;
      (split; [intros text ->; try reflexivity
              |intros -> ->; try reflexivity]);
      destruct doc; try reflexivity;
      rewrite ?andb_false_r; reflexivity.
Qed.

(** X21: a field that is not managed yet and has an explicit type is
    rebuilt as a managed field that keeps the annotation but has no model
    name and is not a relation, whatever the model says about its name. *)
Theorem explicit_type_is_no_relation :
  forall (self : DjangoTypeExtension) (field : Field),
    is_private (type_ field) = false ->
    is_auto (type_ field) = false ->
    kind field <> StrawberryDjangoField ->
    (kind field = StrawberryField -> base_resolver field = None) ->
    exists field',
      on_field cleandoc contenttypes_available get_model_field
        resolve_model_field_type resolve_model_field_name self field
      = Ok field'
      /\ kind field' = StrawberryDjangoField
      /\ type_annotation field' = type_annotation_of field
      /\ django_name field' = Some None
      /\ Definitions.is_relation field' = false.
Proof.
  intros self field Hp Ha Hk Hres. unfold on_field. rewrite Hp, Ha.
  simpl bind.
  destruct (kind field) eqn:Ek; [| |congruence].
  - eexists. split; [reflexivity|].
    unfold input_default. destruct (is_input self && _ && _); simpl; auto.
  - rewrite (Hres eq_refl).
    eexists. split; [reflexivity|].
    unfold input_default. destruct (is_input self && _ && _); simpl; auto.
Qed.

(** X22: a placeholder field that names a property of the model class (and
    no model field) takes the property's annotation as it stands: it is
    never wrapped in an optional, not even in a partial input, it is not a
    relation, and its model name is the name that was looked up. *)
Theorem property_fields_keep_their_annotation :
  forall (self : DjangoTypeExtension) (field : Field)
         (annotation : annotation) (doc : option string),
    get_model_field (model self) (model_name_of field) = None ->
    dict_get (class_attrs (model self)) (model_name_of field)
    = Some (CProperty (Some annotation) doc)
    \/ dict_get (class_attrs (model self)) (model_name_of field)
       = Some (CCachedProperty (Some annotation) doc)
    \/ dict_get (class_attrs (model self)) (model_name_of field)
       = Some (CModelProperty annotation doc) ->
    exists attrs,
      _get_model_attrs cleandoc contenttypes_available get_model_field
        resolve_model_field_type resolve_model_field_name self field
      = Ok attrs
      /\ attrs_type_annotation attrs = annotation
      /\ attrs_is_relation attrs = false
      /\ attrs_django_name attrs = Some (model_name_of field).
Proof.
  intros self field annotation doc Hget Hfound.
  unfold _get_model_attrs. rewrite Hget.
  destruct Hfound as [->|[->| ->]]; eexists; repeat split.
Qed.

End AttrsFacts.

Lemma explicit_description_wins_witness :
  exists attrs,
    _get_model_attrs Fixtures.identity true Fixtures.get_field
      Fixtures.field_type Fixtures.field_name
      (Fixtures.type_extension Fixtures.Fruit)
      (Fixtures.described "name" (AType TAuto) "The name of the fruit")
    = Ok attrs
    /\ attrs_description attrs = Some "The name of the fruit".
Proof.
  eexists. split; [reflexivity|].
  apply (proj1 (explicit_description_wins Fixtures.identity true
                  Fixtures.get_field Fixtures.field_type Fixtures.field_name
                  (Fixtures.type_extension Fixtures.Fruit)
                  (Fixtures.described "name" (AType TAuto)
                     "The name of the fruit")
                  eq_refl)).
  reflexivity.
Defined.

Lemma explicit_type_is_no_relation_witness :
  exists field',
    on_field Fixtures.identity true Fixtures.get_field Fixtures.field_type
      Fixtures.field_name (Fixtures.type_extension Fixtures.Fruit)
      (Fixtures.declared "color" (AType Fixtures.ColorNode))
    = Ok field'
    /\ Definitions.is_relation field' = false.
Proof.
  destruct (explicit_type_is_no_relation Fixtures.identity true
              Fixtures.get_field Fixtures.field_type Fixtures.field_name
              (Fixtures.type_extension Fixtures.Fruit)
              (Fixtures.declared "color" (AType Fixtures.ColorNode))
              eq_refl eq_refl ltac:(discriminate) ltac:(discriminate))
    as [field' [Hok [_ [_ [_ Hrel]]]]].
  exists field'. split; assumption.
Defined.

Lemma property_fields_keep_their_annotation_witness :
  exists attrs,
    _get_model_attrs Fixtures.identity true Fixtures.get_field
      Fixtures.field_type Fixtures.field_name
      (Fixtures.input_extension Fixtures.Fruit true)
      (Fixtures.declared "title" (AType TAuto))
    = Ok attrs
    /\ attrs_type_annotation attrs = AType (TClass "str").
Proof.
  destruct (property_fields_keep_their_annotation Fixtures.identity true
              Fixtures.get_field Fixtures.field_type Fixtures.field_name
              (Fixtures.input_extension Fixtures.Fruit true)
              (Fixtures.declared "title" (AType TAuto))
              (annotation := AType (TClass "str")) (doc := None)
              eq_refl (or_introl eq_refl))
    as [attrs [Hok [Hann _]]].
  exists attrs. split; assumption.
Defined.

(** ** More on lazy resolution *)

Lemma auto_to_unresolved_not_auto (r : resolved) :
  auto_to_unresolved r <> Resolved TAuto.
Proof.
  destruct r as [|t]; simpl; [discriminate|].
  destruct t; simpl; discriminate.
Qed.

Lemma returned_not_auto (x r : resolved) (s s1 : Field) (n l : nat) :
  Ok (auto_to_unresolved x, s, n) = Ok (r, s1, l) -> r <> Resolved TAuto.
Proof.
  intros H. inversion H. apply auto_to_unresolved_not_auto.
Qed.

Lemma returned_field (x r : resolved) (s s1 : Field) (n l : nat) :
  Ok (x, s, n) = Ok (r, s1, l) -> s1 = s.
Proof. intros H. now inversion H. Qed.

Lemma lookup_name_model_name (field : Field) (p : string) :
  python_name field = Some p -> p <> "" ->
  lookup_name field = model_name_of field.
Proof.
  intros Hp Hne. unfold lookup_name, model_name_of, python_name_of.
  rewrite Hp. apply String.eqb_neq in Hne. rewrite Hne. simpl.
  destruct (django_name field) as [[n|]|]; auto.
  destruct (String.eqb n ""); reflexivity.
Qed.

Section ResolutionFacts.

Variable namespace : string -> option ty.
Variable get_model_field : Model -> string -> option ModelField.
Variable resolve_model_field_type : ModelField -> definition_attrs -> ty.

(** X24: on a field whose class has its definition, [resolve_type] never
    hands out the placeholder: what it returns is [UNRESOLVED] or a type
    other than [auto]. Without the definition the annotation is returned as
    it resolves, the placeholder included. *)
Theorem placeholder_never_escapes :
  forall (self self1 : Field) (r : resolved) (lookups : nat),
    resolve_type namespace get_model_field resolve_model_field_type self
    = Ok (r, self1, lookups) ->
    (fst (django_definition self) <> None -> r <> Resolved TAuto)
    /\ (fst (django_definition self) = None ->
        r = StrawberryField_resolve_type namespace self
        /\ self1 = self /\ lookups = 0).
Proof.
  intros self self1 r lookups Hcall. rewrite resolve_type_outcome in Hcall.
  destruct (StrawberryField_resolve_type namespace self) as [|t0] eqn:Hbase.
  { inversion Hcall; subst. split; [discriminate|auto]. }
  destruct (django_definition self) as [[django_def|] self'] eqn:Hdef;
    simpl fst.
  - split; [|discriminate]. intros _.
    destruct (is_any_or_auto (unwrap_type t0)).
    + destruct (get_model_field (model django_def) (lookup_name self))
        as [model_field|]; [|discriminate].
      destruct (python_name self) as [p|]; [|discriminate].
      destruct (type_source p model_field) as [target|]; [|discriminate].
      cbv zeta in Hcall.
      destruct (is_any_or_auto _); [discriminate|].
      eapply returned_not_auto. exact Hcall.
    + eapply returned_not_auto. exact Hcall.
  - inversion Hcall; subst. split; [congruence|]. intros _.
    destruct (django_definition_cached self Hdef)
      as [_ [_ [_ [_ [_ [_ [_ [Hsame _]]]]]]]].
    now rewrite (Hsame eq_refl).
Qed.

(** X25: three ways in which [resolve_type] fails while it consults the
    model for a placeholder, each of them before the type of the attribute
    is asked for: the lookup finds no field of that name
    ([FieldDoesNotExist]: no property of the model class is considered
    here), the field has no python name to test for the ["_id"] suffix, or
    the name has the suffix and the foreign key found has no target
    field. *)
Theorem resolve_type_errors :
  forall (self self1 : Field) (t : ty) (django_def : DjangoObjectDefinition),
    StrawberryField_resolve_type namespace self = Resolved t ->
    django_definition self = (Some django_def, self1) ->
    is_any_or_auto (unwrap_type t) = true ->
    (get_model_field (model django_def) (lookup_name self) = None ->
     resolve_type namespace get_model_field resolve_model_field_type self
     = Raise FieldDoesNotExist)
    /\ (forall model_field,
           get_model_field (model django_def) (lookup_name self)
           = Some model_field ->
           python_name self = None ->
           resolve_type namespace get_model_field resolve_model_field_type
             self
           = Raise (AttributeError "endswith"))
    /\ (forall model_field p,
           get_model_field (model django_def) (lookup_name self)
           = Some model_field ->
           python_name self = Some p ->
           endswith p "_id" = true ->
           isinstance_ForeignKey model_field = true ->
           target_field model_field = None ->
           resolve_type namespace get_model_field resolve_model_field_type
             self
           = Raise (AttributeError "target_field")).
Proof.
  intros self self1 t django_def Hbase Hdef Hauto.
  split; [|split].
  - intros Hget. rewrite resolve_type_outcome.
    now rewrite Hbase, Hdef, Hauto, Hget.
  - intros model_field Hget Hp. rewrite resolve_type_outcome.
    now rewrite Hbase, Hdef, Hauto, Hget, Hp.
  - intros model_field p Hget Hp Hid Hfk Hkey. rewrite resolve_type_outcome.
    rewrite Hbase, Hdef, Hauto, Hget, Hp.
    unfold type_source, is_fk_id. now rewrite Hid, Hfk, Hkey.
Qed.

(** X26: resolving the type touches two slots of the field only, the
    annotation and the cached definition: every other attribute is as it
    was, and the cached definition afterwards is the one the field had or
    the one of its origin. *)
Theorem resolve_type_frame :
  forall (self self1 : Field) (r : resolved) (lookups : nat),
    resolve_type namespace get_model_field resolve_model_field_type self
    = Ok (r, self1, lookups) ->
    kind self1 = kind self
    /\ name self1 = name self
    /\ python_name self1 = python_name self
    /\ django_name self1 = django_name self
    /\ description self1 = description self
    /\ default self1 = default self
    /\ default_value self1 = default_value self
    /\ base_resolver self1 = base_resolver self
    /\ origin self1 = origin self
    /\ origin_definition self1 = origin_definition self
    /\ (StrawberryField_resolve_type namespace self = UNRESOLVED
        \/ _django_definition self1 = fst (django_definition self)).
Proof.
  intros self self1 r lookups Hcall. rewrite resolve_type_outcome in Hcall.
  destruct (StrawberryField_resolve_type namespace self) as [|t0] eqn:Hbase.
  { inversion Hcall; subst. repeat split; auto. }
  assert (Hframe :
            forall d s,
              django_definition self = (d, s) ->
              kind s = kind self /\ name s = name self
              /\ python_name s = python_name self
              /\ django_name s = django_name self
              /\ description s = description self
              /\ default s = default self
              /\ default_value s = default_value self
              /\ base_resolver s = base_resolver self
              /\ origin s = origin self
              /\ origin_definition s = origin_definition self
              /\ _django_definition s = d).
  { unfold django_definition. intros d s.
    destruct (_django_definition self) eqn:Hc.
    - intros H. inversion H; subst. repeat split; auto.
    - destruct (origin_definition self) eqn:Ho;
        intros H; inversion H; subst; simpl; repeat split; auto. }
  destruct (django_definition self) as [d self'] eqn:Hdef.
  specialize (Hframe d self' eq_refl). simpl fst.
  destruct d as [django_def|].
  - destruct (is_any_or_auto (unwrap_type t0)).
    + destruct (get_model_field (model django_def) (lookup_name self))
        as [model_field|]; [|discriminate].
      destruct (python_name self) as [p|] eqn:Hp'; [|discriminate].
      destruct (type_source p model_field) as [target|]; [|discriminate].
      cbv zeta in Hcall.
      destruct (is_any_or_auto _); [discriminate|].
      apply returned_field in Hcall. subst self1. simpl.
      intuition congruence.
    + apply returned_field in Hcall. subst self1. intuition.
  - apply returned_field in Hcall. subst self1. intuition.
Qed.

End ResolutionFacts.

Lemma placeholder_never_escapes_witness :
  Resolved (TClass "int") <> Resolved TAuto.
Proof.
  apply (proj1 (@placeholder_never_escapes Fixtures.no_names
                  Fixtures.get_field Fixtures.field_type
                  (Fixtures.auto_descriptor "name")
                  (set_type_annotation
                     (set_django_definition (Fixtures.auto_descriptor "name")
                        (Some Fixtures.fruit_definition))
                     (Some (AType (TClass "int"))))
                  (Resolved (TClass "int")) 1 eq_refl)).
  discriminate.
Defined.

Lemma resolve_type_errors_witness :
  resolve_type Fixtures.no_names Fixtures.get_field Fixtures.field_type
    (Fixtures.auto_descriptor "title")
  = Raise FieldDoesNotExist.
Proof.
  apply (proj1 (@resolve_type_errors Fixtures.no_names Fixtures.get_field
                  Fixtures.field_type (Fixtures.auto_descriptor "title")
                  (set_django_definition (Fixtures.auto_descriptor "title")
                     (Some Fixtures.fruit_definition))
                  TAuto Fixtures.fruit_definition eq_refl eq_refl eq_refl)).
  reflexivity.
Defined.

Lemma resolve_type_frame_witness :
  python_name
    (set_type_annotation
       (set_django_definition (Fixtures.auto_descriptor "maker_id")
          (Some Fixtures.fruit_definition))
       (Some (AType (TClass "ID"))))
  = Some "maker_id".
Proof.
  apply (proj1 (proj2 (proj2
           (@resolve_type_frame Fixtures.no_names Fixtures.get_field
              Fixtures.field_type (Fixtures.auto_descriptor "maker_id")
              (set_type_annotation
                 (set_django_definition (Fixtures.auto_descriptor "maker_id")
                    (Some Fixtures.fruit_definition))
                 (Some (AType (TClass "ID"))))
              (Resolved (TClass "ID")) 1 eq_refl)))).
Defined.

(** X27: decoration and lazy resolution agree. For a placeholder field
    with a python name, found in the model, the annotation the engine
    computes at decoration is the type the descriptor stores and returns
    when it resolves the placeholder itself, provided the definition of the
    class carries the engine's model and flags. (A type that still unwraps
    to the placeholder or [Any] is stored all the same, and the nested calls
    that follow end in [RecursionError].) *)
Theorem decoration_and_lazy_resolution_agree :
  forall (cleandoc : string -> string) (contenttypes_available : bool)
         (get_model_field : Model -> string -> option ModelField)
         (resolve_model_field_type : ModelField -> definition_attrs -> ty)
         (resolve_model_field_name :
            ModelField -> bool -> bool -> bool -> string)
         (namespace : string -> option ty)
         (self : DjangoTypeExtension) (field field1 : Field)
         (django_def : DjangoObjectDefinition) (model_attr : ModelField)
         (p : string) (attrs : ModelAttrs),
    definition_attrs_of django_def = extension_attrs self ->
    type_annotation field = Some (AType TAuto) ->
    python_name field = Some p ->
    p <> "" ->
    django_definition field = (Some django_def, field1) ->
    get_model_field (model self) (model_name_of field) = Some model_attr ->
    _get_model_attrs cleandoc contenttypes_available get_model_field
      resolve_model_field_type resolve_model_field_name self field
    = Ok attrs ->
    exists resolved_type,
      attrs_type_annotation attrs = AType resolved_type
      /\ resolve_type namespace get_model_field resolve_model_field_type
           field
         = if is_any_or_auto (unwrap_type resolved_type)
           then Raise RecursionError
           else Ok (auto_to_unresolved (Resolved resolved_type),
                    set_type_annotation field1 (Some (AType resolved_type)),
                    1).
Proof.
  intros cleandoc contenttypes_available get_model_field
         resolve_model_field_type resolve_model_field_name namespace self
         field field1 django_def model_attr p attrs Hattrs Hann Hp Hne Hdef
         Hget Hok.
  assert (Hpn : python_name_of field = p)
    by (unfold python_name_of; now rewrite Hp).
  destruct (type_source p model_attr) as [target|e] eqn:Hsrc.
  2:{ unfold _get_model_attrs in Hok. rewrite Hget, Hpn, Hsrc in Hok.
      discriminate. }
  destruct (get_model_attrs_of_field cleandoc contenttypes_available
              get_model_field resolve_model_field_type
              resolve_model_field_name self field Hget
              (eq_ind_r (fun n => type_source n model_attr = Ok target)
                 Hsrc Hpn))
    as [attrs' [Hok' [Hann' _]]].
  rewrite Hok in Hok'. inversion Hok'; subst attrs'.
  eexists. split; [exact Hann'|].
  assert (Hbase : StrawberryField_resolve_type namespace field
                  = Resolved TAuto)
    by (unfold StrawberryField_resolve_type; now rewrite Hann).
  assert (Hget' : get_model_field (model django_def) (lookup_name field)
                  = Some model_attr).
  { rewrite (lookup_name_model_name field Hp Hne), Hattrs. exact Hget. }
  rewrite (resolve_type_lookup namespace get_model_field
             resolve_model_field_type field Hbase Hdef eq_refl Hget' Hp Hsrc).
  now rewrite Hattrs.
Qed.

Lemma decoration_and_lazy_resolution_agree_witness :
  exists resolved_type,
    _get_model_attrs Fixtures.identity true Fixtures.get_field
      Fixtures.field_type Fixtures.field_name
      (Fixtures.type_extension Fixtures.Fruit)
      (Fixtures.auto_descriptor "color_id")
    = Ok {| attrs_django_name := None;
            attrs_type_annotation := AType resolved_type;
            attrs_description := None;
            attrs_is_relation := true |}
    /\ resolve_type Fixtures.no_names Fixtures.get_field Fixtures.field_type
         (Fixtures.auto_descriptor "color_id")
       = Ok (auto_to_unresolved (Resolved resolved_type),
             set_type_annotation
               (set_django_definition (Fixtures.auto_descriptor "color_id")
                  (Some Fixtures.fruit_definition))
               (Some (AType resolved_type)), 1).
Proof.
  destruct (@decoration_and_lazy_resolution_agree Fixtures.identity true
              Fixtures.get_field Fixtures.field_type Fixtures.field_name
              Fixtures.no_names (Fixtures.type_extension Fixtures.Fruit)
              (Fixtures.auto_descriptor "color_id")
              (set_django_definition (Fixtures.auto_descriptor "color_id")
                 (Some Fixtures.fruit_definition))
              Fixtures.fruit_definition Fixtures.color_field "color_id"
              {| attrs_django_name := None;
                 attrs_type_annotation := AType (TOptional (TClass "ID"));
                 attrs_description := None;
                 attrs_is_relation := true |}
              eq_refl eq_refl eq_refl ltac:(discriminate) eq_refl eq_refl
              eq_refl)
    as [resolved_type [Hann Hres]].
  exists resolved_type. simpl in Hann. inversion Hann; subst.
  split; [reflexivity|exact Hres].
Defined.

(** ** The decorators *)

(** X28: [partial] makes an input whose every field resolved from a model
    attribute is optional, whatever the attribute. *)
Theorem partial_fields_are_optional :
  forall (cleandoc : string -> string) (contenttypes_available : bool)
         (get_model_field : Model -> string -> option ModelField)
         (resolve_model_field_type : ModelField -> definition_attrs -> ty)
         (resolve_model_field_name :
            ModelField -> bool -> bool -> bool -> string)
         (settings : Settings) (model : Model) (name : option string)
         (description : option string) (directives : list string)
         (fields : fields_arg) (exclude : option (list string))
         (field : Field) (model_attr target : ModelField),
    let call :=
      TypeModule.partial settings model name description directives fields
        exclude in
    let self := TypeModule.call_extension call in
    get_model_field model (model_name_of field) = Some model_attr ->
    type_source (python_name_of field) model_attr = Ok target ->
    TypeModule.call_is_input call = true
    /\ is_input self = true
    /\ is_partial self = true
    /\ exists attrs,
        _get_model_attrs cleandoc contenttypes_available get_model_field
          resolve_model_field_type resolve_model_field_name self field
        = Ok attrs
        /\ attrs_type_annotation attrs
           = AType (TOptional (resolve_model_field_type target self)).
Proof.
  intros cleandoc contenttypes_available get_model_field
         resolve_model_field_type resolve_model_field_name settings model
         name description directives fields exclude field model_attr target
         call self Hget Hsrc.
  repeat split.
  destruct (get_model_attrs_of_field cleandoc contenttypes_available
              get_model_field resolve_model_field_type
              resolve_model_field_name self field Hget Hsrc)
    as [attrs [Hok [Hann _]]].
  exists attrs. split; [exact Hok|]. rewrite Hann.
  unfold FieldsTypes.is_optional. simpl.
  destruct (null model_attr); destruct (has_default model_attr); reflexivity.
Qed.

Lemma partial_fields_are_optional_witness :
  exists attrs,
    _get_model_attrs Fixtures.identity true Fixtures.get_field
      Fixtures.field_type Fixtures.field_name
      (TypeModule.call_extension
         (TypeModule.partial Fixtures.defaults Fixtures.InputFieldsModel None
            None [] FieldsNone None))
      (Fixtures.declared "mandatory" (AType TAuto))
    = Ok attrs
    /\ attrs_type_annotation attrs = AType (TOptional (TClass "int")).
Proof.
  destruct (@partial_fields_are_optional Fixtures.identity true
              Fixtures.get_field Fixtures.field_type Fixtures.field_name
              Fixtures.defaults Fixtures.InputFieldsModel None None []
              FieldsNone None (Fixtures.declared "mandatory" (AType TAuto))
              (Fixtures.column "mandatory" false false false)
              (Fixtures.column "mandatory" false false false)
              eq_refl eq_refl)
    as [_ [_ [_ [attrs [Hok Hann]]]]].
  exists attrs. split; assumption.
Defined.

(** X29: [interface] passes neither a field selection nor a filter flag:
    the before phase of an interface leaves the annotations of the class
    body exactly as declared, and the type is no input. *)
Theorem interface_adds_no_fields :
  forall (to_camel_case : string -> string) (settings : Settings)
         (model : Model) (name : option string) (description : option string)
         (directives : list string) (disable_optimization : bool)
         (cls : PyClass),
    let call :=
      TypeModule.interface settings model name description directives
        disable_optimization in
    TypeModule.call_is_interface call = true
    /\ TypeModule.call_is_input call = false
    /\ is_input (TypeModule.call_extension call) = false
    /\ is_partial (TypeModule.call_extension call) = false
    /\ cls_annotations
         (snd (on_wrap_dataclass to_camel_case
                 (TypeModule.call_extension call) cls))
       = Some (match cls_annotations cls with Some d => d | None => [] end).
Proof.
  intros to_camel_case settings model name description directives
         disable_optimization cls call.
  repeat split.
  unfold on_wrap_dataclass, call, TypeModule.interface, TypeModule.type,
    __init__, model_field_names. simpl.
  now rewrite andb_false_r.
Qed.
